(** * Appointment booking server (src/server.js): slot computation,
      date sanitisation and the appointment handlers.

    The development follows the source file top-down:
    - [JSDate]: the part of the JavaScript [Date] object the server relies on
      (parsing of ISO-8601 UTC strings, [getTime] arithmetic, [toISOString]);
    - the Mongoose documents [Doctor] and [Appointment] and the collections;
    - [calculateAvailableSlots] with its [while] loop and [isSlotTaken];
    - [sanitizeDate] and the date processing of POST /appointments;
    - the handlers POST, PUT and DELETE /appointments, first as atomic
      functions on the database, then POST split at its [await] points to
      study two interleaved requests.

    Instants are [Z] numbers of milliseconds since the epoch, as returned by
    [Date.prototype.getTime]; an Invalid Date ([NaN] time value) is [None]. *)

From stdpp Require Import base option list sorting gmap strings.
From Stdlib Require Import ZArith Ascii String Lia.
From Equations Require Import Equations.

Local Open Scope string_scope.
Local Open Scope list_scope.
Local Open Scope Z_scope.

(** ** The JavaScript [Date] object *)

Module JSDate.

Definition msPerMinute : Z := 60000.
Definition msPerHour : Z := 3600000.
Definition msPerDay : Z := 86400000.

(** ECMA-262 [TimeClip]: a time value beyond 8.64e15 ms is [NaN]. *)
Definition maxTime : Z := 8640000000000000.

Definition TimeClip (t : Z) : option Z :=
  if Z.abs t <=? maxTime then Some t else None.

(** [\d] of a JavaScript regular expression: the ASCII digits only. *)
Definition digitVal (c : ascii) : option Z :=
  let n := Z.of_N (N_of_ascii c) in
  if (48 <=? n) && (n <=? 57) then Some (n - 48) else None.

Definition isDigit (c : ascii) : bool :=
  match digitVal c with Some _ => true | None => false end.

(** Exactly [n] decimal digits, most significant first. *)
Fixpoint pDigits (n : nat) (acc : Z) (s : string) : option (Z * string) :=
  match n with
  | O => Some (acc, s)
  | S n' =>
      match s with
      | String c s' =>
          match digitVal c with
          | Some d => pDigits n' (10 * acc + d) s'
          | None => None
          end
      | EmptyString => None
      end
  end.

Definition pChar (c : ascii) (s : string) : option string :=
  match s with
  | String c' s' => if Ascii.eqb c c' then Some s' else None
  | EmptyString => None
  end.

(** The year: four digits, or a sign and six digits ([-000000] is not a
    year). *)
Definition pYear (s : string) : option (Z * string) :=
  match pDigits 4 0 s with
  | Some r => Some r
  | None =>
      match s with
      | String c s' =>
          if Ascii.eqb c "+" then pDigits 6 0 s'
          else if Ascii.eqb c "-" then
            '(y, r) ← pDigits 6 0 s';
            if y =? 0 then None else Some (- y, r)
          else None
      | EmptyString => None
      end
  end.

(** ECMA-262 [DayFromYear]. *)
Definition DayFromYear (y : Z) : Z :=
  365 * (y - 1970) + (y - 1969) / 4 - (y - 1901) / 100 + (y - 1601) / 400.

Definition InLeapYear (y : Z) : bool :=
  ((y mod 4 =? 0) && negb (y mod 100 =? 0)) || (y mod 400 =? 0).

(** Days before the first of month [m] (1..12) within year [y]. *)
Definition DaysBeforeMonth (y m : Z) : Z :=
  let leap := if InLeapYear y then 1 else 0 in
  match m with
  | 1 => 0
  | 2 => 31
  | 3 => 59 + leap
  | 4 => 90 + leap
  | 5 => 120 + leap
  | 6 => 151 + leap
  | 7 => 181 + leap
  | 8 => 212 + leap
  | 9 => 243 + leap
  | 10 => 273 + leap
  | 11 => 304 + leap
  | _ => 334 + leap
  end.

(** ECMA-262 [MakeDay] for a month in 1..12; a day of month beyond the
    month's length runs over into the next month, as in V8. *)
Definition MakeDay (y m d : Z) : Z :=
  DayFromYear y + DaysBeforeMonth y m + (d - 1).

(** The optional time part [THH:mm], [THH:mm:ss] or [THH:mm:ss.sss], always
    followed by the UTC designator [Z]; the result is the time within the
    day in milliseconds.  Hour 24 is accepted only as 24:00:00.000. *)
Definition pTime (s : string) : option Z :=
  s ← pChar "T" s;
  '(h, s) ← pDigits 2 0 s;
  s ← pChar ":" s;
  '(mi, s) ← pDigits 2 0 s;
  '(sec, ms, s) ←
    match pChar ":" s with
    | Some s1 =>
        '(sec, s2) ← pDigits 2 0 s1;
        match pChar "." s2 with
        | Some s3 => '(ms, s4) ← pDigits 3 0 s3; Some (sec, ms, s4)
        | None => Some (sec, 0, s2)
        end
    | None => Some (0, 0, s)
    end;
  s ← pChar "Z" s;
  if negb (String.eqb s "") then None
  else if (h <=? 23) && (mi <=? 59) && (sec <=? 59)
          || (h =? 24) && (mi =? 0) && (sec =? 0) && (ms =? 0)
  then Some (h * msPerHour + mi * msPerMinute + sec * 1000 + ms)
  else None.

(** [new Date(s).getTime()] for the ECMA-262 date-time string format:
    [YYYY], [YYYY-MM] or [YYYY-MM-DD] (the year possibly in the signed
    six-digit form), alone (UTC midnight) or followed by a time part and
    [Z].  Every other string is an Invalid Date here; date-times without
    [Z] (host-local time, numeric offsets) and the engine's legacy formats
    are not modelled. *)
Definition parse (s : string) : option Z :=
  '(y, s) ← pYear s;
  '(m, d, s) ←
    match pChar "-" s with
    | Some s1 =>
        '(m, s2) ← pDigits 2 0 s1;
        match pChar "-" s2 with
        | Some s3 => '(d, s4) ← pDigits 2 0 s3; Some (m, d, s4)
        | None => Some (m, 1, s2)
        end
    | None => Some (1, 1, s)
    end;
  if (1 <=? m) && (m <=? 12) && (1 <=? d) && (d <=? 31) then
    let day := MakeDay y m d in
    match s with
    | EmptyString => TimeClip (day * msPerDay)
    | _ => t ← pTime s; TimeClip (day * msPerDay + t)
    end
  else None.

(** ECMA-262 [YearFromTime] on day numbers: the year [y] with
    [DayFromYear y <= day < DayFromYear (y + 1)], found next to the
    estimate [day / 365.2425]. *)
Definition YearFromDay (day : Z) : Z :=
  let y0 := 1970 + day * 400 / 146097 in
  if DayFromYear (y0 + 1) <=? day then y0 + 1
  else if DayFromYear y0 <=? day then y0
  else y0 - 1.

(** ECMA-262 [MonthFromTime] (here 1..12) from the day within the year. *)
Definition MonthFromDoy (y doy : Z) : Z :=
  if doy <? DaysBeforeMonth y 2 then 1
  else if doy <? DaysBeforeMonth y 3 then 2
  else if doy <? DaysBeforeMonth y 4 then 3
  else if doy <? DaysBeforeMonth y 5 then 4
  else if doy <? DaysBeforeMonth y 6 then 5
  else if doy <? DaysBeforeMonth y 7 then 6
  else if doy <? DaysBeforeMonth y 8 then 7
  else if doy <? DaysBeforeMonth y 9 then 8
  else if doy <? DaysBeforeMonth y 10 then 9
  else if doy <? DaysBeforeMonth y 11 then 10
  else if doy <? DaysBeforeMonth y 12 then 11
  else 12.

(** Calendar fields of a day number (days since 1970-01-01):
    year, month (1..12), day of month. *)
Definition civilFromDay (day : Z) : Z * Z * Z :=
  let y := YearFromDay day in
  let doy := day - DayFromYear y in
  let m := MonthFromDoy y doy in
  (y, m, doy - DaysBeforeMonth y m + 1).

Definition digitChar (d : Z) : ascii := ascii_of_N (Z.to_N (48 + d mod 10)).

(** [n] rendered with exactly [k] decimal digits (zero padded). *)
Fixpoint padDigits (k : nat) (n : Z) (tail : string) : string :=
  match k with
  | O => tail
  | S k' => padDigits k' (n / 10) (String (digitChar n) tail)
  end.

(** [Date.prototype.toISOString] of a valid time value: four-digit years
    for 0..9999, the signed six-digit form otherwise. *)
Definition toISOString (t : Z) : string :=
  let day := t / msPerDay in
  let tod := t mod msPerDay in
  let '(y, m, d) := civilFromDay day in
  let year :=
    if (0 <=? y) && (y <=? 9999) then padDigits 4 y ""
    else String (if y <? 0 then "-"%char else "+"%char) (padDigits 6 (Z.abs y) "") in
  year +:+ "-" +:+ padDigits 2 m "" +:+ "-" +:+ padDigits 2 d "" +:+ "T"
    +:+ padDigits 2 (tod / msPerHour) "" +:+ ":"
    +:+ padDigits 2 (tod mod msPerHour / msPerMinute) "" +:+ ":"
    +:+ padDigits 2 (tod mod msPerMinute / 1000) "" +:+ "."
    +:+ padDigits 3 (tod mod 1000) "" +:+ "Z".

(** [s.split("T")[0]]: the text before the first [T]. *)
Fixpoint splitT0 (s : string) : string :=
  match s with
  | EmptyString => EmptyString
  | String c s' => if Ascii.eqb c "T" then EmptyString else String c (splitT0 s')
  end.

End JSDate.

(** ** Documents and collections *)

(** A well-formed Mongo [ObjectId]; the handlers are studied on well-formed
    ids only (Mongoose rejects any other [_id] before it queries). *)
Abbreviation ObjectId := positive.

(** [doctorSchema]; [workingHours.start] and [workingHours.end] are stored
    as free strings. *)
Record Doctor := mkDoctor {
  doctor_id : ObjectId;
  name : string;
  workingHours_start : string;
  workingHours_end : string;
  specialization : string
}.

(** [appointmentSchema]; [date] is a valid [Date] (its time value),
    [duration] a whole number of minutes, or [None] when the field is
    absent from the document (fractional minute counts are outside the
    model). *)
Record Appointment := mkAppointment {
  appointment_id : ObjectId;
  doctorId : ObjectId;
  date : Z;
  duration : option Z;
  appointmentType : string;
  patientName : string;
  notes : string
}.

(** The two collections, indexed by [_id]. *)
Record DB := mkDB {
  Doctors : gmap positive Doctor;
  Appointments : gmap positive Appointment
}.

Definition documents {A} (c : gmap positive A) : list A := (map_to_list c).*2.

(** [Doctor.findById] and [Appointment.findById]. *)
Definition Doctor_findById (db : DB) (id : ObjectId) : option Doctor :=
  Doctors db !! id.

Definition Appointment_findById (db : DB) (id : ObjectId) : option Appointment :=
  Appointments db !! id.

(** [Appointment.find({ doctorId, date: { $gte: from, $lt: to } })]. *)
Definition Appointment_find (db : DB) (doc : ObjectId) (from to : Z)
  : list Appointment :=
  List.filter
    (fun a => Pos.eqb (doctorId a) doc && (from <=? date a) && (date a <? to))
    (documents (Appointments db)).

(** [Appointment.findOne({ doctorId, date })]. *)
Definition Appointment_findOne (db : DB) (doc : ObjectId) (d : Z)
  : option Appointment :=
  List.find (fun a => Pos.eqb (doctorId a) doc && (date a =? d))
    (documents (Appointments db)).

(** ** Errors *)

Inductive Error :=
  | InvalidDate              (* "Invalid date. Use 'YYYY-MM-DD'." *)
  | InvalidWorkingHours      (* "Invalid working hours or date." *)
  | MissingDate              (* "Invalid or missing date field" *)
  | InvalidDateFormat        (* "Invalid date format: ..." *)
  | DoctorNotFound           (* "Doctor ... not found" *)
  | AppointmentNotFound      (* "Appointment not found" *)
  | SlotUnavailable          (* "Time slot is not available" *)
  | SlotAlreadyBooked        (* "Time slot is already booked" *)
  | InvalidOrMissingDate     (* "Invalid or missing date" *)
  | MissingDuration          (* "Invalid or missing duration" *)
  | InvalidTimeValue         (* RangeError of toISOString on an Invalid Date *)
  | CastError.               (* Mongoose cannot cast a value to Date *)

Inductive Result (A : Type) :=
  | Ok (a : A)
  | Throw (e : Error).
Arguments Ok {A} a.
Arguments Throw {A} e.

(** ** [calculateAvailableSlots] *)

(** [isNaN(d.getTime())] *)
Definition isNaN (d : option Z) : bool :=
  match d with Some _ => false | None => true end.

(** [a < b] and [a > b] on [Date]s, either of which may be invalid. *)
Definition date_lt (a b : option Z) : bool :=
  match a, b with Some x, Some y => x <? y | _, _ => false end.

Definition date_gt (a b : option Z) : bool :=
  match a, b with Some x, Some y => x >? y | _, _ => false end.

(** The callback of [appointments.some]: [apptEnd] is an Invalid Date when
    the document has no duration or the sum leaves the [Date] range, and
    every comparison with an Invalid Date is false. *)
Definition overlaps (currentTime : Z) (nextSlot : option Z)
  (appt : Appointment) : bool :=
  let apptStart := date appt in
  let apptEnd := d ← duration appt; JSDate.TimeClip (apptStart + d * 60000) in
  date_lt (Some currentTime) apptEnd && date_gt nextSlot (Some apptStart).

Definition isSlotTaken (appointments : list Appointment)
  (currentTime : Z) (nextSlot : option Z) : bool :=
  existsb (overlaps currentTime nextSlot) appointments.

Section SlotLoop.
(** [render] is what the loop pushes for a free slot: the server pushes
    [currentTime.toISOString()]; with the identity the same loop yields
    the instants themselves. *)
Context {A : Type} (render : Z -> A).
Variable appointments : list Appointment.
Variable workingEnd : Z.

(** The [while (currentTime < workingEnd)] loop; its state is
    [(availableSlots, currentTime)].  When [nextSlot] is an Invalid Date
    the assignment [currentTime = nextSlot] makes the loop test false. *)
Equations? whileSlots (availableSlots : list A) (currentTime : Z) : list A
  by wf (Z.to_nat ((workingEnd - currentTime + 1799999) / 1800000)) lt :=
  whileSlots availableSlots currentTime
    with decide (currentTime < workingEnd) => {
    | left _ =>
        let next := currentTime + 30 * 60000 in
        let nextSlot := JSDate.TimeClip next in
        let availableSlots' :=
          if isSlotTaken appointments currentTime nextSlot
          then availableSlots
          else availableSlots ++ [render currentTime] in
        if isNaN nextSlot then availableSlots'
        else whileSlots availableSlots' next;
    | right _ => availableSlots }.
Proof.
  subst next.
  pose proof (Z.div_mod (workingEnd - (currentTime + 30 * 60000) + 1799999)
                1800000 ltac:(lia)).
  pose proof (Z.mod_pos_bound
                (workingEnd - (currentTime + 30 * 60000) + 1799999)
                1800000 ltac:(lia)).
  pose proof (Z.div_mod (workingEnd - currentTime + 1799999) 1800000
                ltac:(lia)).
  pose proof (Z.mod_pos_bound (workingEnd - currentTime + 1799999) 1800000
                ltac:(lia)).
  lia.
Qed.
End SlotLoop.

(** Lines 51-60: the validity checks and the two ends of the working day.
    The [Date] constructor is [JSDate.parse], the standard format: that is
    the constructor on every day POST passes (the text before [T] of an
    ISO string it has produced) and on every day written [YYYY-MM-DD].  A
    day in another notation, which only an engine's legacy parser reads,
    is an Invalid Date here and fails the first check;
    [workingWindowWith] below takes the constructor as a parameter. *)
Definition workingWindow (doctor : Doctor) (date : string) : Result (Z * Z) :=
  if String.eqb date "" || isNaN (JSDate.parse date)
  then Throw InvalidDate
  else
    match JSDate.parse (date +:+ "T" +:+ workingHours_start doctor +:+ ":00Z"),
          JSDate.parse (date +:+ "T" +:+ workingHours_end doctor +:+ ":00Z") with
    | Some workingStart, Some workingEnd => Ok (workingStart, workingEnd)
    | _, _ => Throw InvalidWorkingHours
    end.

(** Lines 67-86: the loop from [workingStart], over the fetched
    appointments. *)
Definition slotsFrom (appointments : list Appointment)
  (workingStart workingEnd : Z) : list string :=
  whileSlots JSDate.toISOString appointments workingEnd [] workingStart.

Definition calculateAvailableSlots (db : DB) (doctor : Doctor) (date : string)
  : Result (list string) :=
  match workingWindow doctor date with
  | Throw e => Throw e
  | Ok (workingStart, workingEnd) =>
      let appointments :=
        Appointment_find db (doctor_id doctor) workingStart workingEnd in
      Ok (slotsFrom appointments workingStart workingEnd)
  end.

(** The same loop yielding the slot instants instead of their ISO strings
    (see [slotsFrom_instants]). *)
Definition availableInstants (appointments : list Appointment)
  (workingStart workingEnd : Z) : list Z :=
  whileSlots id appointments workingEnd [] workingStart.

(** ** [sanitizeDate] and the date processing of POST /appointments *)

(** One position of the regular expression
    [/(\d{4}-\d{2}-\d{2}T\d{2}:\d{2}:\d{2}\.\d{3}Z)/]. *)
Inductive PatElem :=
  | Digit
  | Lit (c : ascii).

Definition isoPattern : list PatElem :=
  [Digit; Digit; Digit; Digit; Lit "-"; Digit; Digit; Lit "-"; Digit; Digit;
   Lit "T"; Digit; Digit; Lit ":"; Digit; Digit; Lit ":"; Digit; Digit;
   Lit "."; Digit; Digit; Digit; Lit "Z"].

Definition matchElem (p : PatElem) (c : ascii) : bool :=
  match p with
  | Digit => JSDate.isDigit c
  | Lit l => Ascii.eqb l c
  end.

(** The pattern matched at the head of [s]: the matched text. *)
Fixpoint matchHere (pat : list PatElem) (s : string) : option string :=
  match pat with
  | [] => Some EmptyString
  | p :: pat' =>
      match s with
      | String c s' =>
          if matchElem p c
          then m ← matchHere pat' s'; Some (String c m)
          else None
      | EmptyString => None
      end
  end.

(** [s.match(re)] for a regular expression without the [g] flag: the
    leftmost position at which the pattern matches. *)
Fixpoint regexMatch (pat : list PatElem) (s : string) : option string :=
  match matchHere pat s with
  | Some m => Some m
  | None =>
      match s with
      | String _ s' => regexMatch pat s'
      | EmptyString => None
      end
  end.

(** Lines 144-158; [None] is the [null] returned from the [catch]. *)
Definition sanitizeDate (incomingDate : string) : option string :=
  regexMatch isoPattern incomingDate.

(** Lines 142-177: the [try] block computing [processedDate]; every
    failure ends in the 400 response "Invalid date format". *)
Definition processDate (date : string) : Result string :=
  match sanitizeDate date with
  | None => Throw InvalidDateFormat
  | Some sanitizedDate =>
      match JSDate.parse sanitizedDate with
      | None => Throw InvalidDateFormat
      | Some parsedDate => Ok (JSDate.toISOString parsedDate)
      end
  end.

(** ** The appointment handlers, run without interruption *)

Inductive Response :=
  | Created (a : Appointment)      (* 201 *)
  | OkJson (a : Appointment)       (* 200 *)
  | NoContent                      (* 204 *)
  | BadRequest (e : Error)         (* 400 *)
  | NotFound (e : Error)           (* 404 *)
  | ServerError                    (* 500, from the catch of PUT *)
  | Unhandled (e : Error).         (* exception escaping the handler *)

(** Body of POST /appointments; [post_date] is [None] when the field is
    absent or not a string, [post_duration] is [None] when it is absent. *)
Record PostBody := mkPostBody {
  post_doctorId : ObjectId;
  post_date : option string;
  post_duration : option Z;
  post_appointmentType : string;
  post_patientName : string;
  post_notes : string
}.

(** [new Date(slot).toISOString()] *)
Definition normalizeSlot (slot : string) : option string :=
  JSDate.toISOString <$> JSDate.parse slot.

(** [arr.includes(x)] on strings. *)
Definition includes (arr : list string) (x : string) : bool :=
  existsb (String.eqb x) arr.

(** [new Appointment({...})]; Mongoose casts the ISO string
    [processedDate] to a [Date].  The driver draws the new [_id] from the
    clock, a random value and a counter, and never issues one twice; the
    model takes an [_id] that is not in use in the collection the document
    is inserted into.  Which unused [_id] that is, is a choice of the model
    and not of the code: statements about a new document use only that its
    [_id] was not in use. *)
Definition newAppointment (db : DB) (body : PostBody) (date : Z) : Appointment :=
  {| appointment_id := fresh (dom (Appointments db));
     doctorId := post_doctorId body;
     date := date;
     duration := post_duration body;
     appointmentType := post_appointmentType body;
     patientName := post_patientName body;
     notes := post_notes body |}.

(** [doc.save()]: insert or replace by [_id]. *)
Definition save (db : DB) (a : Appointment) : DB :=
  {| Doctors := Doctors db;
     Appointments := <[appointment_id a := a]> (Appointments db) |}.

(** Lines 130-212. *)
Definition post (db : DB) (body : PostBody) : Response * DB :=
  match post_date body with
  | None => (BadRequest MissingDate, db)
  | Some date =>
  if String.eqb date "" then (BadRequest MissingDate, db) else
  match processDate date with
  | Throw _ => (BadRequest InvalidDateFormat, db)
  | Ok processedDate =>
  match Doctor_findById db (post_doctorId body) with
  | None => (NotFound DoctorNotFound, db)
  | Some doctor =>
  match calculateAvailableSlots db doctor (JSDate.splitT0 processedDate) with
  | Throw e => (Unhandled e, db)
  | Ok slots =>
  match mapM normalizeSlot slots with
  | None => (Unhandled InvalidTimeValue, db)
  | Some normalizedSlots =>
  if negb (includes normalizedSlots processedDate)
  then (BadRequest SlotUnavailable, db)
  else
  match JSDate.parse processedDate with
  | None => (Unhandled CastError, db)
  | Some instant =>
  match Appointment_findOne db (post_doctorId body) instant with
  | Some existingAppointment => (BadRequest SlotAlreadyBooked, db)
  | None =>
      let appointment := newAppointment db body instant in
      (Created appointment, save db appointment)
  end end end end end end end.

(** Body of PUT /appointments/:id. *)
Record PutBody := mkPutBody {
  put_date : option string;
  put_duration : option Z
}.

(** PUT hands the [Date] constructor whatever string the client sent
    (line 222), and [calculateAvailableSlots] the text of that string
    before its first [T] (line 239): UTC strings, local times, numeric
    offsets, the engine's legacy formats.  So the handler is studied for
    every constructor: [newDate s] is [new Date(s).getTime()], with [NaN]
    as [None], and [TimeClip] is the last thing the constructor applies.
    Lines 51-60 and 50-87 are taken with the constructor as a parameter;
    at [JSDate.parse] they are [workingWindow] and
    [calculateAvailableSlots] (see [calculateAvailableSlotsWith_parse]). *)
Definition workingWindowWith (newDate : string -> option Z)
  (doctor : Doctor) (date : string) : Result (Z * Z) :=
  if String.eqb date "" || isNaN (newDate date ≫= JSDate.TimeClip)
  then Throw InvalidDate
  else
    match newDate (date +:+ "T" +:+ workingHours_start doctor +:+ ":00Z")
            ≫= JSDate.TimeClip,
          newDate (date +:+ "T" +:+ workingHours_end doctor +:+ ":00Z")
            ≫= JSDate.TimeClip with
    | Some workingStart, Some workingEnd => Ok (workingStart, workingEnd)
    | _, _ => Throw InvalidWorkingHours
    end.

Definition calculateAvailableSlotsWith (newDate : string -> option Z)
  (db : DB) (doctor : Doctor) (date : string) : Result (list string) :=
  match workingWindowWith newDate doctor date with
  | Throw e => Throw e
  | Ok (workingStart, workingEnd) =>
      let appointments :=
        Appointment_find db (doctor_id doctor) workingStart workingEnd in
      Ok (slotsFrom appointments workingStart workingEnd)
  end.

(** Lines 216-256. *)
Definition put (newDate : string -> option Z) (db : DB) (id : ObjectId)
  (body : PutBody) : Response * DB :=
  match put_date body with
  | None => (BadRequest InvalidOrMissingDate, db)
  | Some date =>
  match (if String.eqb date "" then None
         else newDate date ≫= JSDate.TimeClip) with
  | None => (BadRequest InvalidOrMissingDate, db)
  | Some instant =>
  match put_duration body with
  | None | Some 0 => (BadRequest MissingDuration, db)
  | Some duration =>
  match Appointment_findById db id with
  | None => (NotFound AppointmentNotFound, db)
  | Some appointment =>
  match Doctor_findById db (doctorId appointment) with
  | None => (NotFound DoctorNotFound, db)
  | Some doctor =>
  match calculateAvailableSlotsWith newDate db doctor
          (JSDate.splitT0 date) with
  | Throw _ => (ServerError, db)
  | Ok slots =>
  let requestedSlot := JSDate.toISOString instant in
  if negb (includes slots requestedSlot)
  then (BadRequest SlotUnavailable, db)
  else
    let appointment' :=
      {| appointment_id := id;
         doctorId := doctorId appointment;
         date := instant;
         duration := Some duration;
         appointmentType := appointmentType appointment;
         patientName := patientName appointment;
         notes := notes appointment |} in
    (OkJson appointment', save db appointment')
  end end end end end end.

(** Lines 259-263: [findByIdAndDelete] and the 204 response. *)
Definition deleteAppointment (db : DB) (id : ObjectId) : Response * DB :=
  (NoContent,
   {| Doctors := Doctors db; Appointments := delete id (Appointments db) |}).

(** ** The read-only routes *)

Inductive GetResponse (A : Type) :=
  | Json (a : A)                   (* 200 *)
  | Missing (e : Error)            (* 404 *)
  | Escaped (e : Error).           (* exception escaping the handler *)
Arguments Json {A} a.
Arguments Missing {A} e.
Arguments Escaped {A} e.

(** Lines 94-97, GET /doctors. *)
Definition getDoctors (db : DB) : list Doctor := documents (Doctors db).

(** Lines 99-110, GET /doctors/:id/slots; [date] is the query parameter,
    [None] when the request has none ([calculateAvailableSlots] then
    throws at its first test). *)
Definition getSlots (db : DB) (id : ObjectId) (date : option string)
  : GetResponse (list string) :=
  match Doctor_findById db id with
  | None => Missing DoctorNotFound
  | Some doctor =>
      match date with
      | None => Escaped InvalidDate
      | Some date =>
          match calculateAvailableSlots db doctor date with
          | Throw e => Escaped e
          | Ok slots => Json slots
          end
      end
  end.

(** An appointment after [.populate("doctorId")]: the reference is
    replaced by the doctor's document, or by [null] when there is none. *)
Record Populated := mkPopulated {
  populated_appointment : Appointment;
  populated_doctor : option Doctor
}.

Definition populate (db : DB) (a : Appointment) : Populated :=
  mkPopulated a (Doctor_findById db (doctorId a)).

(** Lines 113-116, GET /appointments. *)
Definition getAppointments (db : DB) : list Populated :=
  map (populate db) (documents (Appointments db)).

(** Lines 118-127, GET /appointments/:id. *)
Definition getAppointment (db : DB) (id : ObjectId) : GetResponse Populated :=
  match Appointment_findById db id with
  | None => Missing AppointmentNotFound
  | Some appointment => Json (populate db appointment)
  end.

(** ** POST /appointments, one [await] at a time

    Between two [await]s a handler runs without interruption; at an [await]
    the event loop may resume another request.  A suspended POST is one of
    the states below; a step performs the awaited database operation and
    runs the handler up to its next [await]. *)

Inductive PostState :=
  | AtDoctorFind (body : PostBody) (processedDate : string)
      (* line 180, [await Doctor.findById] *)
  | AtAppointmentFind (body : PostBody) (processedDate : string)
      (doctor : Doctor) (workingStart workingEnd : Z)
      (* line 62, [await Appointment.find] *)
  | AtFindOne (body : PostBody) (processedDate : string)
      (* line 195, [await Appointment.findOne] *)
  | AtSave (body : PostBody) (instant : Z)
      (* line 210, [await appointment.save()] *)
  | Finished (r : Response).

(** Lines 131-177, up to the first [await]. *)
Definition post_begin (body : PostBody) : PostState :=
  match post_date body with
  | None => Finished (BadRequest MissingDate)
  | Some date =>
      if String.eqb date "" then Finished (BadRequest MissingDate)
      else
        match processDate date with
        | Throw _ => Finished (BadRequest InvalidDateFormat)
        | Ok processedDate => AtDoctorFind body processedDate
        end
  end.

Definition post_step (db : DB) (st : PostState) : PostState * DB :=
  match st with
  | AtDoctorFind body processedDate =>
      match Doctor_findById db (post_doctorId body) with
      | None => (Finished (NotFound DoctorNotFound), db)
      | Some doctor =>
          match workingWindow doctor (JSDate.splitT0 processedDate) with
          | Throw e => (Finished (Unhandled e), db)
          | Ok (workingStart, workingEnd) =>
              (AtAppointmentFind body processedDate doctor
                 workingStart workingEnd, db)
          end
      end
  | AtAppointmentFind body processedDate doctor workingStart workingEnd =>
      let appointments :=
        Appointment_find db (doctor_id doctor) workingStart workingEnd in
      let slots := slotsFrom appointments workingStart workingEnd in
      match mapM normalizeSlot slots with
      | None => (Finished (Unhandled InvalidTimeValue), db)
      | Some normalizedSlots =>
          if negb (includes normalizedSlots processedDate)
          then (Finished (BadRequest SlotUnavailable), db)
          else (AtFindOne body processedDate, db)
      end
  | AtFindOne body processedDate =>
      match JSDate.parse processedDate with
      | None => (Finished (Unhandled CastError), db)
      | Some instant =>
          match Appointment_findOne db (post_doctorId body) instant with
          | Some existingAppointment =>
              (Finished (BadRequest SlotAlreadyBooked), db)
          | None => (AtSave body instant, db)
          end
      end
  | AtSave body instant =>
      let appointment := newAppointment db body instant in
      (Finished (Created appointment), save db appointment)
  | Finished r => (Finished r, db)
  end.

(** A request served alone: its steps one after the other. *)
Fixpoint post_steps (n : nat) (db : DB) (st : PostState) : PostState * DB :=
  match n with
  | O => (st, db)
  | S n' => let '(st', db') := post_step db st in post_steps n' db' st'
  end.

(** Two requests in flight over one database; the schedule says whose
    awaited operation completes next. *)
Inductive Turn := First | Second.

Record System := mkSystem {
  database : DB;
  first : PostState;
  second : PostState
}.

Definition system_step (s : System) (t : Turn) : System :=
  match t with
  | First =>
      let '(st, db) := post_step (database s) (first s) in
      mkSystem db st (second s)
  | Second =>
      let '(st, db) := post_step (database s) (second s) in
      mkSystem db (first s) st
  end.

Definition run (schedule : list Turn) (db : DB) (body1 body2 : PostBody)
  : System :=
  fold_left system_step schedule
    (mkSystem db (post_begin body1) (post_begin body2)).

(** The alternating schedule: each request completes one awaited operation
    in turn, so both run their reads before either writes. *)
Definition alternating : list Turn :=
  [First; Second; First; Second; First; Second; First; Second].

(** ** Vocabulary of the specification *)

(** The number of 30-minute steps from [workingStart] that start before
    [workingEnd]: (end - start) / 30 min, rounded up. *)
Definition slotCount (workingStart workingEnd : Z) : Z :=
  (workingEnd - workingStart + 1799999) / 1800000.

(** The slot grid: [workingStart + k * 30 min] for [k < slotCount]. *)
Fixpoint gridFrom (n : nat) (s : Z) : list Z :=
  match n with
  | O => []
  | S n' => s :: gridFrom n' (s + 30 * 60000)
  end.

Definition grid (workingStart workingEnd : Z) : list Z :=
  gridFrom (Z.to_nat (slotCount workingStart workingEnd)) workingStart.

(** A slot is blocked when [isSlotTaken] holds of it. *)
Definition blocked (appointments : list Appointment) (s : Z) : bool :=
  isSlotTaken appointments s (JSDate.TimeClip (s + 30 * 60000)).

Definition free (appointments : list Appointment) (s : Z) : bool :=
  negb (blocked appointments s).

(** A valid [Date]: a time value within the range of [TimeClip]. *)
Definition validTime (t : Z) : Prop := Z.abs t <= JSDate.maxTime.

(** The instant the date processing of POST extracts from the request. *)
Definition normalizedInstant (date : string) : option Z :=
  sanitizedDate ← sanitizeDate date; JSDate.parse sanitizedDate.

(** [m] has the shape of the regular expression, character by character. *)
Definition shaped (pat : list PatElem) (m : string) : Prop :=
  Forall2 (fun p c => matchElem p c = true) pat (list_ascii_of_string m).

(** Every doctor's [_id] is the key it is stored under, as in a Mongo
    collection. *)
Definition wellKeyed (db : DB) : Prop :=
  forall id doctor, Doctors db !! id = Some doctor -> doctor_id doctor = id.

(** A request that has answered 201 has its document stored. *)
Definition answered_stored (db : DB) (st : PostState) : Prop :=
  forall a, st = Finished (Created a) ->
            Appointments db !! appointment_id a = Some a.

(** The date part of [JSDate.parse]: the day number it denotes and the
    text that follows it (see [parse_pDay]). *)
Definition pDay (s : string) : option (Z * string) :=
  '(y, s) ← JSDate.pYear s;
  '(m, d, s) ←
    match JSDate.pChar "-" s with
    | Some s1 =>
        '(m, s2) ← JSDate.pDigits 2 0 s1;
        match JSDate.pChar "-" s2 with
        | Some s3 => '(d, s4) ← JSDate.pDigits 2 0 s3; Some (m, d, s4)
        | None => Some (m, 1, s2)
        end
    | None => Some (1, 1, s)
    end;
  if (1 <=? m) && (m <=? 12) && (1 <=? d) && (d <=? 31)
  then Some (JSDate.MakeDay y m d, s)
  else None.

(** Consecutive instants exactly 30 minutes apart. *)
Definition evenlySpaced (r : list Z) : Prop :=
  forall (i : nat) (x y : Z),
    r !! i = Some x -> r !! S i = Some y -> y - x = 30 * 60000.

(** ** Sample data *)

Definition drAda : Doctor := mkDoctor 1 "Ada" "09:00" "10:00" "obstetrics".
Definition drBea : Doctor := mkDoctor 2 "Bea" "09:00" "10:45" "midwifery".
Definition drCyd : Doctor := mkDoctor 3 "Cyd" "10:00" "09:00" "radiology".
Definition drDee : Doctor := mkDoctor 4 "Dee" "9am" "17:00" "nutrition".

Definition db0 : DB :=
  mkDB (<[1%positive := drAda]> (<[2%positive := drBea]>
         (<[3%positive := drCyd]> (<[4%positive := drDee]> ∅)))) ∅.

Definition booking (doctor : ObjectId) (date : string) (duration : option Z)
  : PostBody :=
  mkPostBody doctor (Some date) duration "checkup" "Mira" "".

(** * Properties *)

(** ** The [Date] model on sample values *)

Example parse_2024_05_01_0900 :
  JSDate.parse "2024-05-01T09:00:00.000Z" = Some 1714554000000.
Proof. vm_compute. reflexivity. Qed.

Example parse_epoch : JSDate.parse "1970-01-01" = Some 0.
Proof. reflexivity. Qed.

Example parse_short_forms :
  JSDate.parse "2024-05-01T09:00Z" = Some 1714554000000
  /\ JSDate.parse "2024-05-01T09:00:00Z" = Some 1714554000000
  /\ JSDate.parse "2024-05-01" = Some 1714521600000
  /\ JSDate.parse "2023-02-31" = Some 1677801600000
  /\ JSDate.parse "+010000-01-01T00:00:00.000Z" = Some 253402300800000
  /\ JSDate.parse "+275760-09-13" = Some 8640000000000000.
Proof. vm_compute. repeat split. Qed.

Example parse_rejects :
  JSDate.parse "2024-13-01T09:00:00.000Z" = None
  /\ JSDate.parse "2024-05-01T25:00:00.000Z" = None
  /\ JSDate.parse "2024-05-01T09:60:00.000Z" = None
  /\ JSDate.parse "2024-05-01T9am:00Z" = None
  /\ JSDate.parse "+275760-09-14" = None
  /\ JSDate.parse "-000000-01-01" = None
  /\ JSDate.parse "tomorrow" = None
  /\ JSDate.parse "" = None.
Proof. vm_compute. repeat split. Qed.

Example toISOString_2024_05_01_0900 :
  JSDate.toISOString 1714554000000 = "2024-05-01T09:00:00.000Z".
Proof. vm_compute. reflexivity. Qed.

Example toISOString_samples :
  JSDate.toISOString 0 = "1970-01-01T00:00:00.000Z"
  /\ JSDate.toISOString (-1) = "1969-12-31T23:59:59.999Z"
  /\ JSDate.toISOString 951782400000 = "2000-02-29T00:00:00.000Z"
  /\ JSDate.toISOString 1709251199999 = "2024-02-29T23:59:59.999Z"
  /\ JSDate.toISOString 253402300800000 = "+010000-01-01T00:00:00.000Z"
  /\ JSDate.toISOString 253402300799999 = "9999-12-31T23:59:59.999Z"
  /\ JSDate.toISOString (-62167219200000) = "0000-01-01T00:00:00.000Z"
  /\ JSDate.toISOString (-62167219200001) = "-000001-12-31T23:59:59.999Z"
  /\ JSDate.toISOString 1704067199999 = "2023-12-31T23:59:59.999Z"
  /\ JSDate.toISOString 1709251200000 = "2024-03-01T00:00:00.000Z"
  /\ JSDate.toISOString 4107542400000 = "2100-03-01T00:00:00.000Z"
  /\ JSDate.toISOString 8640000000000000 = "+275760-09-13T00:00:00.000Z"
  /\ JSDate.toISOString (-8640000000000000) = "-271821-04-20T00:00:00.000Z".
Proof. vm_compute. repeat split. Qed.

Example splitT0_iso :
  JSDate.splitT0 "2024-05-01T09:00:00.000Z" = "2024-05-01".
Proof. reflexivity. Qed.


(** ** [toISOString] and [parse] are inverse on valid dates *)

Module JSDateFacts.
Import JSDate.

Lemma TimeClip_Some t t' : TimeClip t = Some t' -> t' = t /\ Z.abs t <= maxTime.
Proof.
  unfold TimeClip. destruct (Z.leb_spec (Z.abs t) maxTime); intros [= <-]; auto.
Qed.

Lemma TimeClip_valid t : Z.abs t <= maxTime -> TimeClip t = Some t.
Proof.
  intros H. unfold TimeClip. destruct (Z.leb_spec (Z.abs t) maxTime); [done | lia].
Qed.

Lemma digitVal_digitChar n : digitVal (digitChar n) = Some (n mod 10).
Proof.
  pose proof (Z.mod_pos_bound n 10 ltac:(lia)) as Hb.
  unfold digitChar.
  assert (Hc : n mod 10 = 0 \/ n mod 10 = 1 \/ n mod 10 = 2 \/ n mod 10 = 3
               \/ n mod 10 = 4 \/ n mod 10 = 5 \/ n mod 10 = 6 \/ n mod 10 = 7
               \/ n mod 10 = 8 \/ n mod 10 = 9) by lia.
  destruct Hc as [-> | [-> | [-> | [-> | [-> | [-> | [-> | [-> | [-> | ->]]]]]]]]];
    reflexivity.
Qed.

Lemma pDigits_snoc k : forall acc s v c rest d,
  pDigits k acc s = Some (v, String c rest) ->
  digitVal c = Some d ->
  pDigits (S k) acc s = Some (10 * v + d, rest).
Proof.
  induction k as [|k IH]; intros acc s v c rest d Hp Hd.
  - simpl in Hp. injection Hp as <- ->. simpl. by rewrite Hd.
  - simpl in Hp. destruct s as [|c0 s0]; [done |].
    destruct (digitVal c0) as [d0|] eqn:Hd0; [| done].
    specialize (IH _ _ _ _ _ _ Hp Hd).
    change (pDigits (S (S k)) acc (String c0 s0))
      with (match digitVal c0 with
            | Some d => pDigits (S k) (10 * acc + d) s0
            | None => None
            end).
    by rewrite Hd0.
Qed.

Lemma pDigits_padDigits k : forall n acc tail,
  0 <= n < 10 ^ Z.of_nat k ->
  pDigits k acc (padDigits k n tail) = Some (acc * 10 ^ Z.of_nat k + n, tail).
Proof.
  induction k as [|k IH]; intros n acc tail Hn.
  - simpl in *. f_equal. f_equal. lia.
  - rewrite Nat2Z.inj_succ, Z.pow_succ_r in * by lia.
    cbn [padDigits].
    assert (Hq : 0 <= n / 10 < 10 ^ Z.of_nat k).
    { split; [apply Z.div_pos; lia | apply Z.div_lt_upper_bound; lia]. }
    rewrite (pDigits_snoc k acc _ _ _ _ _ (IH (n / 10) acc _ Hq)
               (digitVal_digitChar n)).
    f_equal. f_equal. pose proof (Z.div_mod n 10 ltac:(lia)). lia.
Qed.

Lemma padDigits_app k : forall n tail rest,
  padDigits k n tail +:+ rest = padDigits k n (tail +:+ rest).
Proof.
  induction k as [|k IH]; intros n tail rest; [done |].
  cbn [padDigits]. by rewrite IH.
Qed.

Lemma year_length y :
  DayFromYear (y + 1) - DayFromYear y = 365 + (if InLeapYear y then 1 else 0).
Proof.
  unfold DayFromYear, InLeapYear.
  destruct (Z.eqb_spec (y mod 4) 0), (Z.eqb_spec (y mod 100) 0),
    (Z.eqb_spec (y mod 400) 0); cbn [negb andb orb];
    Z.div_mod_to_equations; lia.
Qed.

Lemma YearFromDay_spec day :
  DayFromYear (YearFromDay day) <= day < DayFromYear (YearFromDay day + 1).
Proof.
  unfold YearFromDay.
  set (y0 := 1970 + day * 400 / 146097).
  assert (Hy0 : 146097 * (y0 - 1970) <= day * 400 < 146097 * (y0 - 1969)).
  { subst y0. Z.div_mod_to_equations. lia. }
  clearbody y0.
  assert (Hlo : DayFromYear (y0 - 1) <= day).
  { unfold DayFromYear. Z.div_mod_to_equations. lia. }
  assert (Hhi : day < DayFromYear (y0 + 2)).
  { unfold DayFromYear. Z.div_mod_to_equations. lia. }
  replace (y0 + 2) with (y0 + 1 + 1) in Hhi by lia.
  destruct (Z.leb_spec (DayFromYear (y0 + 1)) day); [lia |].
  destruct (Z.leb_spec (DayFromYear y0) day); [lia |].
  replace (y0 - 1 + 1) with y0 by lia. lia.
Qed.

Lemma civilFromDay_spec day y m d :
  civilFromDay day = (y, m, d) ->
  y = YearFromDay day /\ 1 <= m <= 12 /\ 1 <= d <= 31 /\ MakeDay y m d = day.
Proof.
  unfold civilFromDay. intros [= <- <- <-].
  pose proof (YearFromDay_spec day) as Hy.
  pose proof (year_length (YearFromDay day)) as Hl.
  set (y := YearFromDay day) in *. clearbody y.
  set (doy := day - DayFromYear y) in *.
  assert (Hdoy : 0 <= doy < 365 + (if InLeapYear y then 1 else 0)) by lia.
  assert (Hday : day = DayFromYear y + doy) by lia.
  clearbody doy. clear Hy Hl. subst day.
  split; [done |].
  unfold MakeDay, MonthFromDoy, DaysBeforeMonth.
  destruct (InLeapYear y);
    repeat (match goal with |- context [if ?a <? ?b then _ else _] =>
              destruct (Z.ltb_spec a b) end); lia.
Qed.

Lemma YearFromDay_bound day :
  -100000000 <= day <= 100000000 -> -271822 <= YearFromDay day <= 275761.
Proof.
  intros Hd. unfold YearFromDay.
  set (y0 := 1970 + day * 400 / 146097).
  assert (-271821 <= y0 <= 275760) by (subst y0; Z.div_mod_to_equations; lia).
  repeat (match goal with |- context [if ?a <=? ?b then _ else _] =>
            destruct (Z.leb_spec a b) end); lia.
Qed.


(** The ISO string of a time value, as nested tails. *)
Lemma toISOString_unfold t :
  toISOString t =
    let day := t / msPerDay in
    let tod := t mod msPerDay in
    let '(y, m, d) := civilFromDay day in
    let rest :=
      String "-" (padDigits 2 m (String "-" (padDigits 2 d (String "T"
        (padDigits 2 (tod / msPerHour) (String ":"
        (padDigits 2 (tod mod msPerHour / msPerMinute) (String ":"
        (padDigits 2 (tod mod msPerMinute / 1000) (String "."
        (padDigits 3 (tod mod 1000) "Z"))))))))))) in
    if (0 <=? y) && (y <=? 9999) then padDigits 4 y rest
    else String (if y <? 0 then "-"%char else "+"%char)
           (padDigits 6 (Z.abs y) rest).
Proof.
  unfold toISOString. cbv zeta.
  destruct (civilFromDay (t / msPerDay)) as [[y m] d].
  destruct ((0 <=? y) && (y <=? 9999));
    repeat (rewrite ?padDigits_app; cbn [String.append]); reflexivity.
Qed.

Lemma pTime_render h mi sec ms :
  0 <= h <= 23 -> 0 <= mi <= 59 -> 0 <= sec <= 59 -> 0 <= ms <= 999 ->
  pTime (String "T" (padDigits 2 h (String ":" (padDigits 2 mi (String ":"
           (padDigits 2 sec (String "." (padDigits 3 ms "Z"))))))))
  = Some (h * msPerHour + mi * msPerMinute + sec * 1000 + ms).
Proof.
  intros Hh Hmi Hsec Hms. unfold pTime.
  cbn [pChar Ascii.eqb Bool.eqb mbind option_bind].
  rewrite pDigits_padDigits by (cbn; lia).
  cbn [pChar Ascii.eqb Bool.eqb mbind option_bind].
  rewrite pDigits_padDigits by (cbn; lia).
  cbn [pChar Ascii.eqb Bool.eqb mbind option_bind].
  rewrite pDigits_padDigits by (cbn; lia).
  cbn [pChar Ascii.eqb Bool.eqb mbind option_bind].
  rewrite pDigits_padDigits by (cbn; lia).
  cbn [pChar Ascii.eqb Bool.eqb mbind option_bind String.eqb negb].
  replace (0 * 10 ^ Z.of_nat 2 + h) with h by lia.
  replace (0 * 10 ^ Z.of_nat 2 + mi) with mi by lia.
  replace (0 * 10 ^ Z.of_nat 2 + sec) with sec by lia.
  replace (0 * 10 ^ Z.of_nat 3 + ms) with ms by lia.
  destruct (Z.leb_spec h 23), (Z.leb_spec mi 59), (Z.leb_spec sec 59);
    try lia.
  reflexivity.
Qed.

Lemma pDate_render m d rest :
  1 <= m <= 12 -> 1 <= d <= 31 ->
  match pChar "-" (String "-" (padDigits 2 m (String "-" (padDigits 2 d rest)))) with
  | Some s1 =>
      '(m, s2) ← pDigits 2 0 s1;
      match pChar "-" s2 with
      | Some s3 => '(d, s4) ← pDigits 2 0 s3; Some (m, d, s4)
      | None => Some (m, 1, s2)
      end
  | None => Some (1, 1, String "-" (padDigits 2 m (String "-" (padDigits 2 d rest))))
  end = Some (m, d, rest).
Proof.
  intros Hm Hd.
  cbn [pChar Ascii.eqb Bool.eqb mbind option_bind].
  rewrite pDigits_padDigits by (cbn; lia).
  cbn [pChar Ascii.eqb Bool.eqb mbind option_bind].
  rewrite pDigits_padDigits by (cbn; lia).
  cbn [mbind option_bind].
  repeat f_equal; lia.
Qed.

Lemma pYear_plus s : pYear (String "+" s) = pDigits 6 0 s.
Proof. reflexivity. Qed.

Lemma pYear_minus s :
  pYear (String "-" s)
  = '(y, r) ← pDigits 6 0 s; if y =? 0 then None else Some (- y, r).
Proof. reflexivity. Qed.

Lemma pYear_render y rest :
  -999999 <= y <= 999999 ->
  pYear (if (0 <=? y) && (y <=? 9999) then padDigits 4 y rest
         else String (if y <? 0 then "-"%char else "+"%char)
                (padDigits 6 (Z.abs y) rest))
  = Some (y, rest).
Proof.
  intros Hy.
  destruct (Z.leb_spec 0 y), (Z.leb_spec y 9999); cbn [andb].
  - unfold pYear. rewrite pDigits_padDigits by (cbn; lia).
    f_equal; f_equal; lia.
  - destruct (Z.ltb_spec y 0); [lia |].
    rewrite pYear_plus, pDigits_padDigits by (cbn; lia).
    f_equal; f_equal; lia.
  - destruct (Z.ltb_spec y 0); [| lia].
    rewrite pYear_minus, pDigits_padDigits by (cbn; lia).
    cbn [mbind option_bind].
    destruct (Z.eqb_spec (0 * 10 ^ Z.of_nat 6 + Z.abs y) 0); [lia |].
    f_equal; f_equal; lia.
  - lia.
Qed.

(** [new Date(d.toISOString())] is [d] again, for every valid [Date]. *)
Theorem parse_toISOString t :
  Z.abs t <= maxTime -> parse (toISOString t) = Some t.
Proof.
  intros Ht. rewrite toISOString_unfold. cbv zeta.
  destruct (civilFromDay (t / msPerDay)) as [[y m] d] eqn:Hc.
  apply civilFromDay_spec in Hc as (Hy & Hm & Hd & Hday).
  assert (Hdayb : -100000000 <= t / msPerDay <= 100000000).
  { unfold maxTime, msPerDay in *. Z.div_mod_to_equations. lia. }
  pose proof (YearFromDay_bound _ Hdayb) as Hyb. rewrite <- Hy in Hyb.
  pose proof (Z.mod_pos_bound t msPerDay ltac:(done)) as Htod.
  pose proof (Z.div_mod t msPerDay ltac:(done)) as Hdm.
  set (tod := t mod msPerDay) in *. clearbody tod.
  unfold parse.
  rewrite pYear_render by lia. cbn [mbind option_bind].
  rewrite pDate_render by lia. cbn [mbind option_bind].
  destruct (Z.leb_spec 1 m), (Z.leb_spec m 12), (Z.leb_spec 1 d),
    (Z.leb_spec d 31); try lia.
  cbn [andb].
  rewrite pTime_render.
  - cbn [mbind option_bind]. rewrite Hday.
    replace (t / msPerDay * msPerDay + _) with t.
    + by apply TimeClip_valid.
    + unfold msPerDay, msPerHour, msPerMinute in *.
      Z.div_mod_to_equations. lia.
  - unfold msPerDay, msPerHour in *. Z.div_mod_to_equations. lia.
  - unfold msPerDay, msPerHour, msPerMinute in *. Z.div_mod_to_equations. lia.
  - unfold msPerDay, msPerMinute in *. Z.div_mod_to_equations. lia.
  - Z.div_mod_to_equations. lia.
Qed.

Corollary toISOString_inj t1 t2 :
  Z.abs t1 <= maxTime -> Z.abs t2 <= maxTime ->
  toISOString t1 = toISOString t2 -> t1 = t2.
Proof.
  intros H1 H2 Heq.
  apply parse_toISOString in H1, H2. rewrite Heq in H1. congruence.
Qed.

Lemma parse_valid s t : parse s = Some t -> Z.abs t <= maxTime.
Proof.
  unfold parse. intros H.
  destruct (pYear s) as [[y s1]|]; [| done]. cbn [mbind option_bind] in H.
  destruct (match pChar "-" s1 with Some _ => _ | None => _ end)
    as [[[m d] s2]|]; [| done].
  cbn [mbind option_bind] in H.
  destruct ((1 <=? m) && (m <=? 12) && (1 <=? d) && (d <=? 31)); [| done].
  destruct s2.
  - apply TimeClip_Some in H as [-> H]. exact H.
  - destruct (pTime _); [| done]. cbn [mbind option_bind] in H.
    apply TimeClip_Some in H as [-> H]. exact H.
Qed.

End JSDateFacts.

(** ** The loop of [calculateAvailableSlots] *)

Import JSDate JSDateFacts.

Lemma grid_cons ws we :
  ws < we -> grid ws we = ws :: grid (ws + 30 * 60000) we.
Proof.
  intros H. unfold grid, slotCount.
  replace (we - ws + 1799999) with ((we - (ws + 30 * 60000) + 1799999) + 1 * 1800000)
    by lia.
  rewrite Z.div_add by lia.
  assert (0 <= (we - (ws + 30 * 60000) + 1799999) / 1800000)
    by (Z.div_mod_to_equations; lia).
  rewrite Z2Nat.inj_add by lia. rewrite Nat.add_comm. reflexivity.
Qed.

Lemma grid_nil ws we : ~ ws < we -> grid ws we = [].
Proof.
  intros H. unfold grid, slotCount.
  assert ((we - ws + 1799999) / 1800000 <= 0) by (Z.div_mod_to_equations; lia).
  by rewrite Z2Nat.nonpos.
Qed.

Lemma whileSlots_grid {A} (render : Z -> A) appointments workingEnd :
  workingEnd <= maxTime ->
  forall availableSlots currentTime,
  - maxTime <= currentTime ->
  whileSlots render appointments workingEnd availableSlots currentTime
  = availableSlots
      ++ map render (List.filter (free appointments) (grid currentTime workingEnd)).
Proof.
  intros Hwe availableSlots currentTime.
  funelim (whileSlots render appointments workingEnd availableSlots currentTime).
  all: intros Hcur.
  - rewrite (grid_cons currentTime workingEnd) by done.
    cbn [List.filter]. unfold free at 1. unfold blocked.
    destruct (TimeClip (currentTime + 30 * 60000)) as [next|] eqn:Hclip;
      cbn [isNaN].
    + apply TimeClip_Some in Hclip as [-> Hclip].
      rewrite H by lia.
      destruct (isSlotTaken appointments currentTime _); cbn [negb map];
        [done | by rewrite <- app_assoc].
    + assert (Hout : maxTime < currentTime + 30 * 60000).
      { unfold TimeClip in Hclip.
        destruct (Z.leb_spec (Z.abs (currentTime + 30 * 60000)) maxTime);
          [done | lia]. }
      rewrite (grid_nil (currentTime + 30 * 60000)) by lia.
      destruct (isSlotTaken appointments currentTime None); cbn [negb map];
        [by rewrite app_nil_r | done].
  - rewrite grid_nil by done. cbn. by rewrite app_nil_r.
Qed.

Lemma slotsFrom_instants appointments workingStart workingEnd :
  - maxTime <= workingStart -> workingEnd <= maxTime ->
  slotsFrom appointments workingStart workingEnd
  = map toISOString (availableInstants appointments workingStart workingEnd).
Proof.
  intros Hs He. unfold slotsFrom, availableInstants.
  rewrite !whileSlots_grid by done. cbn [app]. by rewrite map_id.
Qed.

Lemma availableInstants_grid appointments workingStart workingEnd :
  - maxTime <= workingStart -> workingEnd <= maxTime ->
  availableInstants appointments workingStart workingEnd
  = List.filter (free appointments) (grid workingStart workingEnd).
Proof.
  intros Hs He. unfold availableInstants.
  rewrite whileSlots_grid by done. cbn [app]. by rewrite map_id.
Qed.

Lemma gridFrom_elem n : forall s x,
  x ∈ gridFrom n s <->
  exists k, 0 <= k < Z.of_nat n /\ x = s + k * 1800000.
Proof.
  induction n as [|n IH]; intros s x.
  - cbn. split; [by intros ?%elem_of_nil | intros (k & ? & _); lia].
  - cbn [gridFrom]. rewrite elem_of_cons, IH. split.
    + intros [-> | (k & Hk & ->)].
      * exists 0. lia.
      * exists (k + 1). lia.
    + intros (k & Hk & ->).
      destruct (decide (k = 0)) as [-> | Hne]; [left; lia |].
      right. exists (k - 1). lia.
Qed.

Lemma gridFrom_length n s : List.length (gridFrom n s) = n.
Proof. revert s. induction n as [|n IH]; intros s; cbn; [done | by rewrite IH]. Qed.

Lemma gridFrom_sorted n : forall s, StronglySorted Z.lt (gridFrom n s).
Proof.
  induction n as [|n IH]; intros s; cbn [gridFrom]; constructor; [apply IH |].
  apply Forall_forall. intros x (k & Hk & ->)%gridFrom_elem. lia.
Qed.

Lemma grid_elem ws we x :
  x ∈ grid ws we <->
  ws <= x < we /\ exists k, 0 <= k /\ x = ws + k * 1800000.
Proof.
  unfold grid. rewrite gridFrom_elem. unfold slotCount. split.
  - intros (k & Hk & ->). split; [| exists k; lia].
    destruct (decide (ws < we));
      [rewrite Z2Nat.id in Hk by (Z.div_mod_to_equations; lia)
      | rewrite Z2Nat.nonpos in Hk by (Z.div_mod_to_equations; lia)];
      Z.div_mod_to_equations; lia.
  - intros (Hx & k & Hk & ->). exists k. split; [| done].
    rewrite Z2Nat.id by (Z.div_mod_to_equations; lia).
    Z.div_mod_to_equations. lia.
Qed.

Lemma grid_length ws we :
  ws < we -> Z.of_nat (List.length (grid ws we)) = slotCount ws we.
Proof.
  intros H. unfold grid. rewrite gridFrom_length.
  apply Z2Nat.id. unfold slotCount. Z.div_mod_to_equations. lia.
Qed.

Lemma validTime_between lo hi t :
  - maxTime <= lo -> hi <= maxTime -> lo <= t < hi -> validTime t.
Proof. unfold validTime. lia. Qed.

Lemma filter_elem {A} (f : A -> bool) (l : list A) (x : A) :
  x ∈ List.filter f l <-> x ∈ l /\ f x = true.
Proof. rewrite !list_elem_of_In. apply filter_In. Qed.

Lemma filter_StronglySorted {A} (R : A -> A -> Prop) (f : A -> bool) l :
  StronglySorted R l -> StronglySorted R (List.filter f l).
Proof.
  induction 1 as [|a l Hl IH Ha]; cbn [List.filter]; [constructor |].
  destruct (f a); [| done].
  constructor; [done |].
  apply Forall_forall. intros x [Hx _]%filter_elem.
  by apply (proj1 (Forall_forall _ _) Ha).
Qed.

Lemma filter_split_length {A} (f : A -> bool) (l : list A) :
  (List.length (List.filter f l)
   + List.length (List.filter (fun x => negb (f x)) l))%nat = List.length l.
Proof.
  induction l as [|a l IH]; [done |].
  cbn [List.filter]. destruct (f a); cbn [negb List.length]; lia.
Qed.

Lemma StronglySorted_adjacent (l : list Z) : forall (i : nat) (x y : Z),
  StronglySorted Z.lt l -> l !! i = Some x -> l !! S i = Some y -> x < y.
Proof.
  induction l as [|a l IH]; intros i x y Hs Hx Hy; [done |].
  inversion Hs as [|? ? Hl Ha]; subst.
  destruct i as [|i].
  - cbn in Hx, Hy. injection Hx as <-.
    apply (proj1 (Forall_forall _ _) Ha). by eapply list_elem_of_lookup_2.
  - cbn in Hx, Hy. by eapply IH.
Qed.

Lemma isSlotTaken_true appointments currentTime nextSlot :
  isSlotTaken appointments currentTime nextSlot = true <->
  exists appt, appt ∈ appointments /\ overlaps currentTime nextSlot appt = true.
Proof.
  unfold isSlotTaken. rewrite existsb_exists.
  split; intros (a & Ha & Ho); exists a; by rewrite ?list_elem_of_In in *.
Qed.

Lemma overlaps_true (s : Z) (appt : Appointment) (d : Z) :
  duration appt = Some d ->
  validTime (s + 30 * 60000) -> validTime (date appt + d * 60000) ->
  overlaps s (TimeClip (s + 30 * 60000)) appt = true
  <-> s < date appt + d * 60000 /\ s + 30 * 60000 > date appt.
Proof.
  intros Hd Hs He. unfold overlaps. rewrite Hd. cbn [mbind option_bind].
  rewrite !TimeClip_valid by done. cbn [date_lt date_gt].
  rewrite andb_true_iff, Z.ltb_lt, Z.gtb_gt. reflexivity.
Qed.

Lemma Appointment_find_elem db doc from to (a : Appointment) :
  a ∈ Appointment_find db doc from to <->
  (exists id, Appointments db !! id = Some a)
  /\ doctorId a = doc /\ from <= date a < to.
Proof.
  unfold Appointment_find, documents. rewrite filter_elem, list_elem_of_fmap.
  rewrite !andb_true_iff, Pos.eqb_eq, Z.leb_le, Z.ltb_lt.
  split.
  - intros [([id a'] & -> & Hin%elem_of_map_to_list) [[? ?] ?]].
    split; [by exists id | done].
  - intros [[id Hid] (? & ? & ?)]. split; [| done].
    exists (id, a). split; [done | by apply elem_of_map_to_list].
Qed.

Lemma workingWindow_valid doctor day ws we :
  workingWindow doctor day = Ok (ws, we) -> validTime ws /\ validTime we.
Proof.
  unfold workingWindow. destruct (_ || _); [done |].
  destruct (parse (day +:+ "T" +:+ workingHours_start doctor +:+ ":00Z"))
    as [ws'|] eqn:Hs; [| done].
  destruct (parse (day +:+ "T" +:+ workingHours_end doctor +:+ ":00Z"))
    as [we'|] eqn:He; [| done].
  intros [= <- <-]. split; by eapply parse_valid.
Qed.

Lemma calculateAvailableSlots_instants db doctor day ws we :
  workingWindow doctor day = Ok (ws, we) ->
  calculateAvailableSlots db doctor day
  = Ok (map toISOString
          (availableInstants (Appointment_find db (doctor_id doctor) ws we)
             ws we)).
Proof.
  intros Hw. unfold calculateAvailableSlots. rewrite Hw.
  destruct (workingWindow_valid _ _ _ _ Hw) as [Hs He].
  unfold validTime in *. rewrite slotsFrom_instants by lia. reflexivity.
Qed.

Lemma availableInstants_elem appointments ws we s :
  validTime ws -> validTime we ->
  s ∈ availableInstants appointments ws we <->
  s ∈ grid ws we /\ blocked appointments s = false.
Proof.
  intros Hs He. unfold validTime in *.
  rewrite availableInstants_grid, filter_elem by lia.
  unfold free. by rewrite negb_true_iff.
Qed.

Lemma availableInstants_valid appointments ws we s :
  validTime ws -> validTime we ->
  s ∈ availableInstants appointments ws we -> validTime s.
Proof.
  intros Hs He [[Hr _]%grid_elem _]%availableInstants_elem; [| done..].
  unfold validTime in *. lia.
Qed.

Lemma toISOString_elem (l : list Z) (t : Z) :
  validTime t -> Forall validTime l ->
  toISOString t ∈ map toISOString l <-> t ∈ l.
Proof.
  intros Ht Hl. rewrite list_elem_of_fmap. split.
  - intros (t' & Heq & Hin).
    assert (t = t') as ->; [| done].
    apply toISOString_inj; [done | | done].
    by apply (proj1 (Forall_forall _ _) Hl).
  - intros Hin. by exists t.
Qed.

(** ** The claims about [calculateAvailableSlots] *)

(** C5, amended: for a candidate slot [s, s + 30 min) and an appointment
    interval [a, a + d) whose ends [s + 30 min] and [a + d] are valid Date
    instants (at most 8.64e15 ms from the epoch), the callback of
    [isSlotTaken] holds iff [s < a + d] and [s + 30 min > a]; [isSlotTaken]
    holds of a list of such appointments iff one of them satisfies this; a
    slot that ends where the appointment starts, or starts where it ends,
    is not in conflict with it. *)
Theorem overlap_half_open (appointments : list Appointment) (s : Z)
  (appt : Appointment) (d : Z) :
  duration appt = Some d ->
  validTime (s + 30 * 60000) ->
  validTime (date appt + d * 60000) ->
  let nextSlot := TimeClip (s + 30 * 60000) in
  (overlaps s nextSlot appt = true
     <-> s < date appt + d * 60000 /\ s + 30 * 60000 > date appt)
  /\ (isSlotTaken [appt] s nextSlot = true
        <-> s < date appt + d * 60000 /\ s + 30 * 60000 > date appt)
  /\ (appt ∈ appointments ->
      s < date appt + d * 60000 -> s + 30 * 60000 > date appt ->
      isSlotTaken appointments s nextSlot = true)
  /\ ((forall x, x ∈ appointments ->
         exists dx, duration x = Some dx /\ validTime (date x + dx * 60000)) ->
      isSlotTaken appointments s nextSlot = true
      <-> exists x dx, x ∈ appointments /\ duration x = Some dx
            /\ s < date x + dx * 60000 /\ s + 30 * 60000 > date x)
  /\ (s + 30 * 60000 = date appt ->
      overlaps s nextSlot appt = false
      /\ isSlotTaken [appt] s nextSlot = false)
  /\ (s = date appt + d * 60000 ->
      overlaps s nextSlot appt = false
      /\ isSlotTaken [appt] s nextSlot = false).
Proof.
  intros Hd Hs He nextSlot. subst nextSlot.
  pose proof (overlaps_true s appt d Hd Hs He) as Hiff.
  assert (Hone : isSlotTaken [appt] s (TimeClip (s + 30 * 60000))
                 = overlaps s (TimeClip (s + 30 * 60000)) appt).
  { unfold isSlotTaken. cbn [existsb]. apply orb_false_r. }
  split; [exact Hiff |].
  split; [by rewrite Hone |].
  split.
  { intros Hin Hlt Hgt. apply isSlotTaken_true. exists appt.
    split; [done |]. by apply Hiff. }
  split.
  { intros Hall. rewrite isSlotTaken_true. split.
    - intros (x & Hx & Ho).
      destruct (Hall x Hx) as (dx & Hdx & Hvx).
      exists x, dx. split; [done |]. split; [done |].
      by apply (overlaps_true s x dx Hdx Hs Hvx).
    - intros (x & dx & Hx & Hdx & Hlt & Hgt).
      destruct (Hall x Hx) as (dx' & Hdx' & Hvx).
      assert (dx' = dx) as -> by congruence.
      exists x. split; [done |].
      by apply (overlaps_true s x dx Hdx Hs Hvx). }
  split; intros Heq; rewrite Hone;
    (split; apply not_true_is_false; rewrite Hiff; lia).
Qed.

Lemma overlap_half_open_witness :
  overlaps 1714554000000 (TimeClip (1714554000000 + 30 * 60000))
    (mkAppointment 1 1 1714555800000 (Some 45) "checkup" "Mira" "") = false
  /\ isSlotTaken
       [mkAppointment 1 1 1714555800000 (Some 45) "checkup" "Mira" ""]
       1714554000000 (TimeClip (1714554000000 + 30 * 60000)) = false.
Proof.
  destruct (overlap_half_open [] 1714554000000
              (mkAppointment 1 1 1714555800000 (Some 45) "checkup" "Mira" "")
              45) as (_ & _ & _ & _ & Htouch & _).
  - reflexivity.
  - unfold validTime, maxTime. lia.
  - unfold validTime, maxTime. cbn [date]. lia.
  - apply Htouch. reflexivity.
Defined.

(** C5 as stated fails: POST stores any duration, so a booking at 09:00
    with a duration of 10^14 minutes is stored; its end lies beyond the
    Date range, [apptEnd] is an Invalid Date and every comparison with it
    is false.  The slot at 09:00 satisfies [s < a + d] and
    [s + 30 min > a], yet the test is false of it and the slot is still
    listed. *)
Lemma overlap_test_false_beyond_date_range :
  let db :=
    (post db0 (booking 1 "2024-05-01T09:00:00.000Z" (Some (10 ^ 14)))).2 in
  let appt :=
    mkAppointment 1 1 1714554000000 (Some (10 ^ 14)) "checkup" "Mira" "" in
  let s := 1714554000000 in
  let nextSlot := TimeClip (s + 30 * 60000) in
  Appointments db !! 1%positive = Some appt
  /\ Appointment_find db 1 1714554000000 1714557600000 = [appt]
  /\ nextSlot = Some (s + 30 * 60000)
  /\ s < date appt + 10 ^ 14 * 60000
  /\ s + 30 * 60000 > date appt
  /\ overlaps s nextSlot appt = false
  /\ isSlotTaken [appt] s nextSlot = false
  /\ calculateAvailableSlots db drAda "2024-05-01"
     = Ok ["2024-05-01T09:00:00.000Z"; "2024-05-01T09:30:00.000Z"].
Proof.
  cbv zeta. cbn [date].
  split; [vm_compute; reflexivity |].
  split; [vm_compute; reflexivity |].
  split; [vm_compute; reflexivity |].
  split; [lia |]. split; [lia |].
  repeat split; vm_compute; reflexivity.
Qed.

(** C4, amended: for a doctor whose working day [ws, we) is not empty,
    the slots returned are the ISO strings of instants that are in
    chronological order, each of the form [ws + k * 30 min] within
    [ws, we), consecutive ones a positive multiple of 30 minutes apart, and
    their number is (we - ws) / 30 min rounded up, minus the number of
    blocked slots of the grid. *)
Theorem available_slots_on_grid db doctor day ws we :
  workingWindow doctor day = Ok (ws, we) ->
  ws < we ->
  let appointments := Appointment_find db (doctor_id doctor) ws we in
  let r := availableInstants appointments ws we in
  calculateAvailableSlots db doctor day = Ok (map toISOString r)
  /\ StronglySorted Z.lt r
  /\ (forall s, s ∈ r ->
        ws <= s < we /\ exists k, 0 <= k /\ s = ws + k * 1800000)
  /\ (forall (i : nat) (x y : Z), r !! i = Some x -> r !! S i = Some y ->
        exists k, 1 <= k /\ y - x = k * 1800000)
  /\ Z.of_nat (List.length r)
     = slotCount ws we
       - Z.of_nat (List.length (List.filter (blocked appointments) (grid ws we))).
Proof.
  intros Hw Hlt appointments r.
  destruct (workingWindow_valid _ _ _ _ Hw) as [Hs He].
  assert (Hr : r = List.filter (free appointments) (grid ws we)).
  { unfold validTime in *. apply availableInstants_grid; lia. }
  assert (Hsorted : StronglySorted Z.lt r).
  { rewrite Hr. apply filter_StronglySorted, gridFrom_sorted. }
  assert (Hgrid : forall s, s ∈ r ->
            ws <= s < we /\ exists k, 0 <= k /\ s = ws + k * 1800000).
  { intros s. rewrite Hr, filter_elem, grid_elem. tauto. }
  split; [by apply calculateAvailableSlots_instants |].
  split; [done |]. split; [done |]. split.
  - intros i x y Hx Hy.
    pose proof (StronglySorted_adjacent r i x y Hsorted Hx Hy) as Hxy.
    destruct (Hgrid x) as (_ & kx & _ & ->); [by eapply list_elem_of_lookup_2 |].
    destruct (Hgrid y) as (_ & ky & _ & ->); [by eapply list_elem_of_lookup_2 |].
    exists (ky - kx). lia.
  - rewrite <- (grid_length ws we Hlt), Hr.
    rewrite <- (filter_split_length (blocked appointments) (grid ws we)).
    unfold free. lia.
Qed.

Lemma available_slots_on_grid_witness :
  calculateAvailableSlots db0 drAda "2024-05-01"
  = Ok (map toISOString
          (availableInstants
             (Appointment_find db0 1 1714554000000 1714557600000)
             1714554000000 1714557600000)).
Proof.
  apply (available_slots_on_grid db0 drAda "2024-05-01"
           1714554000000 1714557600000).
  - vm_compute. reflexivity.
  - lia.
Defined.

(** C4 as stated fails: Dr Bea works 09:00-10:45 and has one 30-minute
    appointment at 09:30.  The slots returned are 09:00, 10:00 and 10:30:
    the first two are 60 minutes apart, and there are three of them, not
    (10:45 - 09:00) / 30 min minus one blocked slot. *)
Lemma available_slots_not_evenly_spaced :
  let db := (post db0 (booking 2 "2024-05-01T09:30:00.000Z" (Some 30))).2 in
  let ws := 1714554000000 in
  let we := 1714560300000 in
  let appointments := Appointment_find db 2 ws we in
  workingWindow drBea "2024-05-01" = Ok (ws, we)
  /\ ws < we
  /\ calculateAvailableSlots db drBea "2024-05-01"
     = Ok ["2024-05-01T09:00:00.000Z"; "2024-05-01T10:00:00.000Z";
           "2024-05-01T10:30:00.000Z"]
  /\ ~ evenlySpaced (availableInstants appointments ws we)
  /\ List.filter (blocked appointments) (grid ws we) = [1714555800000]
  /\ Z.of_nat (List.length (availableInstants appointments ws we))
     <> (we - ws) / (30 * 60000)
        - Z.of_nat (List.length (List.filter (blocked appointments) (grid ws we)))
  /\ Z.of_nat (List.length (availableInstants appointments ws we)) * (30 * 60000)
     <> (we - ws)
        - Z.of_nat (List.length (List.filter (blocked appointments) (grid ws we)))
          * (30 * 60000).
Proof.
  cbv zeta.
  assert (Hr : availableInstants
                 (Appointment_find
                    (post db0 (booking 2 "2024-05-01T09:30:00.000Z" (Some 30))).2
                    2 1714554000000 1714560300000)
                 1714554000000 1714560300000
               = [1714554000000; 1714557600000; 1714559400000])
    by (vm_compute; reflexivity).
  rewrite Hr.
  split; [vm_compute; reflexivity |].
  split; [lia |].
  split; [vm_compute; reflexivity |].
  split.
  - intros Hsp. specialize (Hsp 0%nat 1714554000000 1714557600000 eq_refl eq_refl).
    lia.
  - split; [vm_compute; reflexivity |].
    split; vm_compute; discriminate.
Qed.

(** C2, amended: for every appointment [A] of the doctor whose start lies
    within the working day [ws, we) of the requested day, every grid slot
    [s, s + 30 min) that overlaps [A.start, A.start + A.duration) is left
    out of the slots returned, whatever the duration and wherever the slot
    starts within the appointment. *)
Theorem overlapping_slots_excluded db doctor day ws we id A d s :
  workingWindow doctor day = Ok (ws, we) ->
  Appointments db !! id = Some A ->
  doctorId A = doctor_id doctor ->
  ws <= date A < we ->
  duration A = Some d ->
  validTime (date A + d * 60000) ->
  s ∈ grid ws we ->
  validTime (s + 30 * 60000) ->
  s < date A + d * 60000 ->
  date A < s + 30 * 60000 ->
  exists slots,
    calculateAvailableSlots db doctor day = Ok slots
    /\ toISOString s ∉ slots.
Proof.
  intros Hw HA Hdoc Hin Hd Hend Hs Hnext Hlt Hgt.
  destruct (workingWindow_valid _ _ _ _ Hw) as [Hvs Hve].
  eexists. split; [by apply calculateAvailableSlots_instants |].
  set (appointments := Appointment_find db (doctor_id doctor) ws we).
  assert (Hblocked : blocked appointments s = true).
  { apply isSlotTaken_true. exists A. split.
    - apply Appointment_find_elem. split; [by exists id | done].
    - apply (overlaps_true s A d); [done.. | lia]. }
  assert (Hvalid : validTime s).
  { apply grid_elem in Hs as [Hs _]. unfold validTime in *. lia. }
  rewrite toISOString_elem; [| done |].
  - intros [_ Hfree]%availableInstants_elem; [congruence | done..].
  - apply Forall_forall. intros x Hx.
    exact (availableInstants_valid appointments ws we x Hvs Hve Hx).
Qed.

Lemma overlapping_slots_excluded_witness :
  let db := (post db0 (booking 1 "2024-05-01T09:00:00.000Z" (Some 45))).2 in
  exists slots,
    calculateAvailableSlots db drAda "2024-05-01" = Ok slots
    /\ toISOString 1714555800000 ∉ slots.
Proof.
  cbv zeta.
  apply (overlapping_slots_excluded _ drAda "2024-05-01"
           1714554000000 1714557600000 1%positive
           (mkAppointment 1 1 1714554000000 (Some 45) "checkup" "Mira" "") 45).
  - vm_compute. reflexivity.
  - vm_compute. reflexivity.
  - reflexivity.
  - cbn [date]. lia.
  - reflexivity.
  - unfold validTime, maxTime. cbn [date]. lia.
  - apply grid_elem. split; [lia |]. exists 1. lia.
  - unfold validTime, maxTime. lia.
  - cbn [date]. lia.
  - cbn [date]. lia.
Defined.

(** C2 as stated fails: a booking of 1500 minutes made for the first of
    May at 09:00 runs until the second of May at 10:00, yet both slots of
    the second of May are returned: only appointments that start within
    the working hours of the requested day are fetched. *)
Lemma overlapping_slot_of_earlier_day_listed :
  let db := (post db0 (booking 1 "2024-05-01T09:00:00.000Z" (Some 1500))).2 in
  let A := mkAppointment 1 1 1714554000000 (Some 1500) "checkup" "Mira" "" in
  let s := 1714640400000 in
  Appointments db !! 1%positive = Some A
  /\ doctorId A = doctor_id drAda
  /\ workingWindow drAda "2024-05-02" = Ok (1714640400000, 1714644000000)
  /\ grid 1714640400000 1714644000000 = [s; 1714642200000]
  /\ s < date A + 1500 * 60000
  /\ date A < s + 30 * 60000
  /\ toISOString s = "2024-05-02T09:00:00.000Z"
  /\ calculateAvailableSlots db drAda "2024-05-02"
     = Ok ["2024-05-02T09:00:00.000Z"; "2024-05-02T09:30:00.000Z"].
Proof.
  cbv zeta. cbn [date doctorId doctor_id drAda].
  repeat split; try lia; vm_compute; reflexivity.
Qed.

(** C8, amended: for a valid day, slot generation fails with "Invalid
    working hours or date." whenever the start or the end time of day does
    not make a valid timestamp; when both do and start >= end it succeeds
    with the empty list. *)
Theorem working_hours_failures db doctor day t :
  day <> "" ->
  parse day = Some t ->
  (parse (day +:+ "T" +:+ workingHours_start doctor +:+ ":00Z") = None
   \/ parse (day +:+ "T" +:+ workingHours_end doctor +:+ ":00Z") = None ->
   calculateAvailableSlots db doctor day = Throw InvalidWorkingHours)
  /\ (forall ws we,
        parse (day +:+ "T" +:+ workingHours_start doctor +:+ ":00Z") = Some ws ->
        parse (day +:+ "T" +:+ workingHours_end doctor +:+ ":00Z") = Some we ->
        we <= ws ->
        calculateAvailableSlots db doctor day = Ok []).
Proof.
  intros Hne Hday.
  assert (Hguard : String.eqb day "" || isNaN (parse day) = false).
  { rewrite Hday. apply String.eqb_neq in Hne. by rewrite Hne. }
  split.
  - intros Hbad. unfold calculateAvailableSlots, workingWindow.
    rewrite Hguard.
    destruct Hbad as [-> | ->]; [done |].
    by destruct (parse (day +:+ "T" +:+ workingHours_start doctor +:+ ":00Z")).
  - intros ws we Hs He Hle.
    assert (Hw : workingWindow doctor day = Ok (ws, we)).
    { unfold workingWindow. by rewrite Hguard, Hs, He. }
    rewrite (calculateAvailableSlots_instants _ _ _ _ _ Hw).
    destruct (workingWindow_valid _ _ _ _ Hw) as [Hvs Hve].
    unfold validTime in *.
    rewrite availableInstants_grid, grid_nil by lia. reflexivity.
Qed.

Lemma working_hours_failures_witness :
  calculateAvailableSlots db0 drDee "2024-05-01" = Throw InvalidWorkingHours.
Proof.
  destruct (working_hours_failures db0 drDee "2024-05-01" 1714521600000)
    as [Hbad _].
  - discriminate.
  - vm_compute. reflexivity.
  - apply Hbad. left. vm_compute. reflexivity.
Defined.

(** C8 as stated fails: Dr Cyd's hours are 10:00-09:00 (start >= end), and
    slot generation succeeds with the empty list. *)
Lemma reversed_hours_give_no_slots :
  workingHours_start drCyd = "10:00"
  /\ workingHours_end drCyd = "09:00"
  /\ workingWindow drCyd "2024-05-01" = Ok (1714557600000, 1714554000000)
  /\ calculateAvailableSlots db0 drCyd "2024-05-01" = Ok []
  /\ calculateAvailableSlots db0 drCyd "2024-05-01" <> Throw InvalidWorkingHours.
Proof.
  repeat split; try (vm_compute; reflexivity).
  vm_compute. discriminate.
Qed.

(** The check is the one [Date] makes of the composed timestamp: "9am" or
    "0900" are refused, while an hour alone is completed by the ":00Z" the
    server appends and is accepted as that full hour. *)
Example working_hours_samples :
  workingWindow (mkDoctor 5 "Eli" "0900" "17:00" "") "2024-05-01"
  = Throw InvalidWorkingHours
  /\ workingWindow (mkDoctor 5 "Eli" "09:00" "5pm" "") "2024-05-01"
     = Throw InvalidWorkingHours
  /\ workingWindow (mkDoctor 5 "Eli" "09" "17" "") "2024-05-01"
     = Ok (1714554000000, 1714582800000)
  /\ workingWindow drAda "" = Throw InvalidDate.
Proof. vm_compute. repeat split. Qed.

(** ** The date processing of POST /appointments *)

Lemma matchHere_Some pat : forall s m,
  matchHere pat s = Some m <-> exists post, s = m +:+ post /\ shaped pat m.
Proof.
  unfold shaped.
  induction pat as [|p pat IH]; intros s m; cbn [matchHere].
  - split.
    + intros [= <-]. exists s. split; [done | constructor].
    + intros (post & -> & Hm). destruct m; [done | inversion Hm].
  - destruct s as [|c s'].
    + split; [done |]. intros (post & Hs & Hm).
      destruct m; [inversion Hm | done].
    + destruct (matchElem p c) eqn:Hc.
      * destruct (matchHere pat s') as [m'|] eqn:Hm'; cbn [mbind option_bind].
        -- apply IH in Hm' as (post & -> & Hsh). split.
           ++ intros [= <-]. exists post. split; [done |].
              cbn [list_ascii_of_string]. by constructor.
           ++ intros (post' & Hs & Hm).
              destruct m as [|c0 m0]; [inversion Hm |].
              cbn [list_ascii_of_string] in Hm. inversion Hm; subst.
              cbn [String.append] in Hs. injection Hs as -> Hs.
              assert (matchHere pat (m' +:+ post) = Some m0) as Hm0
                by (apply IH; eauto).
              assert (matchHere pat (m' +:+ post) = Some m') as Hm1
                by (apply IH; eauto).
              congruence.
        -- split; [done |]. intros (post' & Hs & Hm).
           destruct m as [|c0 m0]; [inversion Hm |].
           cbn [list_ascii_of_string] in Hm. inversion Hm; subst.
           cbn [String.append] in Hs. injection Hs as -> ->.
           assert (matchHere pat (m0 +:+ post') = Some m0) by (apply IH; eauto).
           congruence.
      * split; [done |]. intros (post' & Hs & Hm).
        destruct m as [|c0 m0]; [inversion Hm |].
        cbn [list_ascii_of_string] in Hm. inversion Hm; subst.
        cbn [String.append] in Hs. injection Hs as -> ->. congruence.
Qed.

Lemma regexMatch_None pat : forall s,
  regexMatch pat s = None <->
  forall pre m post, s = pre +:+ m +:+ post -> ~ shaped pat m.
Proof.
  induction s as [|c s IH]; cbn [regexMatch].
  - destruct (matchHere pat "") as [m|] eqn:Hm.
    + split; [done |]. intros Hno.
      apply matchHere_Some in Hm as (post & Hs & Hsh).
      exfalso. by apply (Hno "" m post).
    + split; [| done]. intros _ pre m post Hs Hsh.
      destruct pre; [| done]. cbn [String.append] in Hs.
      assert (matchHere pat "" = Some m) by (apply matchHere_Some; eauto).
      congruence.
  - destruct (matchHere pat (String c s)) as [m|] eqn:Hm.
    + split; [done |]. intros Hno.
      apply matchHere_Some in Hm as (post & Hs & Hsh).
      exfalso. by apply (Hno "" m post).
    + rewrite IH. split.
      * intros Hno pre m post Hs Hsh. destruct pre as [|c' pre].
        -- cbn [String.append] in Hs.
           assert (matchHere pat (String c s) = Some m)
             by (apply matchHere_Some; eauto).
           congruence.
        -- cbn [String.append] in Hs. injection Hs as -> ->.
           by apply (Hno pre m post).
      * intros Hno pre m post -> Hsh.
        by apply (Hno (String c pre) m post).
Qed.

Lemma regexMatch_here pat s m :
  matchHere pat s = Some m -> regexMatch pat s = Some m.
Proof. intros H. destruct s; cbn [regexMatch]; by rewrite H. Qed.

Lemma regexMatch_leftmost pat m post : forall pre,
  shaped pat m ->
  (forall pre' m' post',
     pre +:+ m +:+ post = pre' +:+ m' +:+ post' -> shaped pat m' ->
     (String.length pre <= String.length pre')%nat) ->
  regexMatch pat (pre +:+ m +:+ post) = Some m.
Proof.
  induction pre as [|c pre IH]; intros Hsh Hleft.
  - cbn [String.append].
    apply regexMatch_here, matchHere_Some. eauto.
  - change (String c pre +:+ m +:+ post)
      with (String c (pre +:+ m +:+ post)) in *.
    destruct (matchHere pat (String c (pre +:+ m +:+ post))) as [m0|] eqn:Hm0.
    + apply matchHere_Some in Hm0 as (post0 & Hs & Hsh0).
      specialize (Hleft "" m0 post0 Hs Hsh0). cbn in Hleft. lia.
    + cbn [regexMatch]. rewrite Hm0.
      apply IH; [done |]. intros pre' m' post' Hs Hsh'.
      specialize (Hleft (String c pre') m' post').
      cbn [String.append String.length] in Hleft.
      rewrite Hs in Hleft. specialize (Hleft eq_refl Hsh'). lia.
Qed.

(** C3, amended: the normalizer extracts the leftmost substring of the
    form YYYY-MM-DDTHH:MM:SS.mmmZ.  With no such substring it fails with
    InvalidDateFormat; otherwise the outcome is that of the leftmost one
    alone: its instant when it parses to a valid instant,
    InvalidDateFormat when it does not.  A duplicated timestamp
    normalizes to that single instant. *)
Theorem processDate_leftmost (date : string) :
  ((forall pre m post, date = pre +:+ m +:+ post -> ~ shaped isoPattern m) ->
   processDate date = Throw InvalidDateFormat)
  /\ (forall pre m post,
        date = pre +:+ m +:+ post ->
        shaped isoPattern m ->
        (forall pre' m' post',
           date = pre' +:+ m' +:+ post' -> shaped isoPattern m' ->
           (String.length pre <= String.length pre')%nat) ->
        processDate date
        = match parse m with
          | Some t => Ok (toISOString t)
          | None => Throw InvalidDateFormat
          end)
  /\ processDate "2024-05-01T09:00:00.000Z2024-05-01T09:00:00.000Z"
     = Ok "2024-05-01T09:00:00.000Z".
Proof.
  split; [| split].
  - intros Hno. unfold processDate, sanitizeDate.
    by rewrite (proj2 (regexMatch_None isoPattern date) Hno).
  - intros pre m post -> Hsh Hleft. unfold processDate, sanitizeDate.
    by rewrite (regexMatch_leftmost isoPattern m post pre Hsh Hleft).
  - vm_compute. reflexivity.
Qed.

(** C3 as stated fails: with two different valid timestamps in the input
    the normalizer does not fail, it returns the first one. *)
Lemma two_timestamps_first_wins :
  let first := "2024-05-01T09:00:00.000Z" in
  let second := "2024-05-02T10:30:00.000Z" in
  shaped isoPattern first
  /\ shaped isoPattern second
  /\ parse first = Some 1714554000000
  /\ parse second = Some 1714645800000
  /\ first <> second
  /\ processDate (first +:+ second) = Ok "2024-05-01T09:00:00.000Z"
  /\ processDate (first +:+ second) <> Throw InvalidDateFormat.
Proof.
  cbv zeta.
  split; [unfold shaped; cbn; repeat constructor |].
  split; [unfold shaped; cbn; repeat constructor |].
  split; [vm_compute; reflexivity |].
  split; [vm_compute; reflexivity |].
  split; [discriminate |].
  split; [vm_compute; reflexivity |].
  vm_compute. discriminate.
Qed.

(** Only the leftmost match counts, also when it is not a valid date and
    a valid one follows. *)
Example processDate_samples :
  processDate "2024-05-01T09:00:00.000Z" = Ok "2024-05-01T09:00:00.000Z"
  /\ processDate "x2024-05-01T09:00:00.000Zjunk" = Ok "2024-05-01T09:00:00.000Z"
  /\ processDate "2024-13-01T09:00:00.000Z" = Throw InvalidDateFormat
  /\ processDate "2024-13-01T09:00:00.000Z2024-05-01T09:00:00.000Z"
     = Throw InvalidDateFormat
  /\ processDate "2024-05-01T09:00:00Z" = Throw InvalidDateFormat
  /\ processDate "2024-05-01" = Throw InvalidDateFormat
  /\ processDate "" = Throw InvalidDateFormat.
Proof. vm_compute. repeat split. Qed.

(** ** The handlers *)

Lemma processDate_normalizedInstant date t :
  normalizedInstant date = Some t -> processDate date = Ok (toISOString t).
Proof.
  unfold normalizedInstant, processDate.
  destruct (sanitizeDate date) as [m|]; cbn [mbind option_bind]; [| done].
  by intros ->.
Qed.

Lemma normalizedInstant_valid date t :
  normalizedInstant date = Some t -> validTime t.
Proof.
  unfold normalizedInstant.
  destruct (sanitizeDate date) as [m|]; cbn [mbind option_bind]; [| done].
  apply parse_valid.
Qed.

Lemma mapM_normalizeSlot (l : list Z) :
  Forall validTime l ->
  mapM normalizeSlot (map toISOString l) = Some (map toISOString l).
Proof.
  induction 1 as [|t l Ht Hl IH]; [done |].
  cbn [map mapM]. rewrite IH. unfold normalizeSlot.
  by rewrite parse_toISOString.
Qed.

Lemma includes_true (arr : list string) (x : string) :
  includes arr x = true <-> x ∈ arr.
Proof.
  unfold includes. rewrite existsb_exists, list_elem_of_In. split.
  - intros (y & Hy & ->%String.eqb_eq). done.
  - intros Hx. exists x. by rewrite String.eqb_refl.
Qed.

Lemma availableInstants_Forall_valid appointments ws we :
  validTime ws -> validTime we ->
  Forall validTime (availableInstants appointments ws we).
Proof.
  intros Hs He. apply Forall_forall. intros x Hx.
  by apply (availableInstants_valid appointments ws we x).
Qed.

(** What POST answers once the date is normalized to [t] and the doctor is
    found: the three remaining outcomes. *)
Lemma post_after_lookup db body date t doctor ws we :
  post_date body = Some date ->
  date <> "" ->
  normalizedInstant date = Some t ->
  Doctor_findById db (post_doctorId body) = Some doctor ->
  workingWindow doctor (splitT0 (toISOString t)) = Ok (ws, we) ->
  post db body
  = if decide (t ∈ availableInstants
                     (Appointment_find db (doctor_id doctor) ws we) ws we)
    then match Appointment_findOne db (post_doctorId body) t with
         | Some _ => (BadRequest SlotAlreadyBooked, db)
         | None =>
             (Created (newAppointment db body t),
              save db (newAppointment db body t))
         end
    else (BadRequest SlotUnavailable, db).
Proof.
  intros Hdate Hne Hnorm Hdoc Hw.
  pose proof (normalizedInstant_valid _ _ Hnorm) as Hvt.
  destruct (workingWindow_valid _ _ _ _ Hw) as [Hvs Hve].
  unfold post. rewrite Hdate.
  apply String.eqb_neq in Hne. rewrite Hne.
  rewrite (processDate_normalizedInstant _ _ Hnorm), Hdoc.
  rewrite (calculateAvailableSlots_instants _ _ _ _ _ Hw).
  rewrite mapM_normalizeSlot by by apply availableInstants_Forall_valid.
  rewrite parse_toISOString by done.
  destruct (includes _ _) eqn:Hinc; cbn [negb].
  - apply includes_true in Hinc.
    rewrite toISOString_elem in Hinc
      by (done || by apply availableInstants_Forall_valid).
    by rewrite decide_True.
  - rewrite decide_False; [done |]. intros Hin.
    apply not_true_iff_false in Hinc. apply Hinc, includes_true.
    apply toISOString_elem; [done | by apply availableInstants_Forall_valid | done].
Qed.

(** C6: once normalization and the doctor lookup have succeeded (and the
    slots of the day could be computed), POST answers "Time slot is not
    available" exactly when the normalized instant is not one of the slot
    starts returned by [calculateAvailableSlots]; nothing is stored then. *)
Theorem post_rejects_off_grid db body date t doctor ws we :
  post_date body = Some date ->
  date <> "" ->
  normalizedInstant date = Some t ->
  Doctor_findById db (post_doctorId body) = Some doctor ->
  workingWindow doctor (splitT0 (toISOString t)) = Ok (ws, we) ->
  let instants :=
    availableInstants (Appointment_find db (doctor_id doctor) ws we) ws we in
  calculateAvailableSlots db doctor (splitT0 (toISOString t))
  = Ok (map toISOString instants)
  /\ (t ∉ instants -> post db body = (BadRequest SlotUnavailable, db))
  /\ (t ∈ instants -> (post db body).1 <> BadRequest SlotUnavailable).
Proof.
  intros Hdate Hne Hnorm Hdoc Hw instants.
  split; [by apply calculateAvailableSlots_instants |].
  rewrite (post_after_lookup db body date t doctor ws we) by done.
  fold instants. split; intros Hin.
  - by rewrite decide_False.
  - rewrite decide_True by done.
    by destruct (Appointment_findOne db (post_doctorId body) t).
Qed.

Lemma post_rejects_off_grid_witness :
  post db0 (booking 1 "2024-05-01T09:15:00.000Z" (Some 30))
  = (BadRequest SlotUnavailable, db0).
Proof.
  destruct (post_rejects_off_grid db0
              (booking 1 "2024-05-01T09:15:00.000Z" (Some 30))
              "2024-05-01T09:15:00.000Z" 1714554900000 drAda
              1714554000000 1714557600000) as (_ & Hreject & _).
  - reflexivity.
  - discriminate.
  - vm_compute. reflexivity.
  - vm_compute. reflexivity.
  - vm_compute. reflexivity.
  - apply Hreject.
    replace (availableInstants _ _ _)
      with [1714554000000; 1714555800000] by (vm_compute; reflexivity).
    intros Hin. apply list_elem_of_In in Hin. cbn in Hin.
    destruct Hin as [? | [? | []]]; lia.
Defined.

Lemma bind_TimeClip_Some (x : option Z) t :
  x ≫= TimeClip = Some t -> x = Some t /\ validTime t.
Proof.
  destruct x as [t'|]; [| done]. cbn [mbind option_bind].
  by intros [-> ?]%TimeClip_Some.
Qed.

Lemma parse_TimeClip s : parse s ≫= TimeClip = parse s.
Proof.
  destruct (parse s) as [t|] eqn:H; [| done]. cbn [mbind option_bind].
  apply TimeClip_valid. by eapply parse_valid.
Qed.

(** At the parser of the standard format the two are the functions of
    lines 50-87 as modelled above. *)
Lemma workingWindowWith_parse doctor day :
  workingWindowWith parse doctor day = workingWindow doctor day.
Proof. unfold workingWindowWith, workingWindow. by rewrite !parse_TimeClip. Qed.

Lemma calculateAvailableSlotsWith_parse db doctor day :
  calculateAvailableSlotsWith parse db doctor day
  = calculateAvailableSlots db doctor day.
Proof.
  unfold calculateAvailableSlotsWith, calculateAvailableSlots.
  by rewrite workingWindowWith_parse.
Qed.

Lemma workingWindowWith_valid newDate doctor day ws we :
  workingWindowWith newDate doctor day = Ok (ws, we) ->
  validTime ws /\ validTime we.
Proof.
  unfold workingWindowWith. destruct (_ || _); [done |].
  destruct (newDate (day +:+ "T" +:+ workingHours_start doctor +:+ ":00Z")
              ≫= TimeClip) as [ws'|] eqn:Hs; [| done].
  destruct (newDate (day +:+ "T" +:+ workingHours_end doctor +:+ ":00Z")
              ≫= TimeClip) as [we'|] eqn:He; [| done].
  intros [= <- <-].
  apply bind_TimeClip_Some in Hs as [_ ?].
  by apply bind_TimeClip_Some in He as [_ ?].
Qed.

Lemma calculateAvailableSlotsWith_instants newDate db doctor day ws we :
  workingWindowWith newDate doctor day = Ok (ws, we) ->
  calculateAvailableSlotsWith newDate db doctor day
  = Ok (map toISOString
          (availableInstants (Appointment_find db (doctor_id doctor) ws we)
             ws we)).
Proof.
  intros Hw. unfold calculateAvailableSlotsWith. rewrite Hw.
  destruct (workingWindowWith_valid _ _ _ _ _ Hw) as [Hs He].
  unfold validTime in *. rewrite slotsFrom_instants by lia. reflexivity.
Qed.

(** A constructor that reads the standard format as [JSDate.parse] does
    computes the working day as [workingWindow] does, where that
    succeeds. *)
Lemma workingWindowWith_extends newDate doctor day ws we :
  (forall s t, parse s = Some t -> newDate s = Some t) ->
  workingWindow doctor day = Ok (ws, we) ->
  workingWindowWith newDate doctor day = Ok (ws, we).
Proof.
  intros Hext. unfold workingWindow, workingWindowWith.
  destruct (String.eqb day ""); [done |]. cbn [orb].
  destruct (parse day) as [t|] eqn:Hday; [| done].
  destruct (parse (day +:+ "T" +:+ workingHours_start doctor +:+ ":00Z"))
    as [ws'|] eqn:Hs; [| done].
  destruct (parse (day +:+ "T" +:+ workingHours_end doctor +:+ ":00Z"))
    as [we'|] eqn:He; [| done].
  intros [= <- <-].
  rewrite (Hext _ _ Hday), (Hext _ _ Hs), (Hext _ _ He).
  cbn [mbind option_bind].
  rewrite !TimeClip_valid by by eapply parse_valid.
  done.
Qed.

(** What PUT answers once its input checks and both lookups have passed. *)
Lemma put_after_lookup newDate db id body requested t minutes appointment
  doctor ws we :
  put_date body = Some requested ->
  requested <> "" ->
  newDate requested ≫= TimeClip = Some t ->
  put_duration body = Some minutes ->
  minutes <> 0 ->
  Appointment_findById db id = Some appointment ->
  Doctor_findById db (doctorId appointment) = Some doctor ->
  workingWindowWith newDate doctor (splitT0 requested) = Ok (ws, we) ->
  let updated :=
    mkAppointment id (doctorId appointment) t (Some minutes)
      (appointmentType appointment) (patientName appointment)
      (notes appointment) in
  put newDate db id body
  = if decide (t ∈ availableInstants
                     (Appointment_find db (doctor_id doctor) ws we) ws we)
    then (OkJson updated, save db updated)
    else (BadRequest SlotUnavailable, db).
Proof.
  intros Hdate Hne Hparse Hdur Hnz Happt Hdoc Hw updated.
  destruct (bind_TimeClip_Some _ _ Hparse) as [_ Hvt].
  destruct (workingWindowWith_valid _ _ _ _ _ Hw) as [Hvs Hve].
  unfold put. rewrite Hdate.
  apply String.eqb_neq in Hne. rewrite Hne, Hparse, Hdur.
  destruct minutes as [|p|p]; [done | |];
    rewrite Happt, Hdoc,
      (calculateAvailableSlotsWith_instants _ _ _ _ _ _ Hw);
    (destruct (includes _ _) eqn:Hinc; cbn [negb];
     [ apply includes_true in Hinc;
       rewrite toISOString_elem in Hinc
         by (done || by apply availableInstants_Forall_valid);
       by rewrite decide_True
     | rewrite decide_False; [done |]; intros Hin;
       apply not_true_iff_false in Hinc; apply Hinc, includes_true;
       apply toISOString_elem;
         [done | by apply availableInstants_Forall_valid | done] ]).
Qed.

(** C7, amended.  Take an update whose body carries a non-empty date
    string that [new Date] reads as a valid instant [t] and a non-zero
    duration, whose appointment and whose doctor are found, and for which
    the doctor's working hours are valid on the day named by the text of
    the date string before its first [T].  The handler re-runs the slot
    validation against [t], with the availability computed for that day
    over all the doctor's stored appointments, the one being modified
    included: whenever [t] is not among the free slots so computed the
    update is refused with 400 "Time slot is not available" and nothing is
    written.  Nothing excludes the appointment's own id: if the appointment
    being modified sits at [t] inside the working hours, belongs to the
    doctor found, and has a positive duration [d] with [t + d] and
    [t + 30 min] valid Date instants, then [t] is not among the free slots
    and the rewrite onto its own instant is refused. *)
Theorem put_validates_against_all newDate db id body requested t minutes
  appointment doctor ws we :
  put_date body = Some requested ->
  requested <> "" ->
  newDate requested ≫= TimeClip = Some t ->
  put_duration body = Some minutes ->
  minutes <> 0 ->
  Appointment_findById db id = Some appointment ->
  Doctor_findById db (doctorId appointment) = Some doctor ->
  workingWindowWith newDate doctor (splitT0 requested) = Ok (ws, we) ->
  let instants :=
    availableInstants (Appointment_find db (doctor_id doctor) ws we) ws we in
  (t ∉ instants ->
   put newDate db id body = (BadRequest SlotUnavailable, db))
  /\ (forall d,
        doctor_id doctor = doctorId appointment ->
        date appointment = t ->
        ws <= t < we ->
        duration appointment = Some d ->
        0 < d ->
        validTime (t + d * 60000) ->
        validTime (t + 30 * 60000) ->
        (t ∉ instants)
        /\ put newDate db id body = (BadRequest SlotUnavailable, db)).
Proof.
  intros Hdate Hne Hparse Hdur Hnz Happt Hdoc Hw instants.
  rewrite (put_after_lookup newDate db id body requested t minutes
             appointment doctor ws we) by done.
  fold instants.
  split; [intros Hin; by rewrite decide_False |].
  intros d Hid Hself Hin Hd Hpos Hend Hnext.
  destruct (workingWindowWith_valid _ _ _ _ _ Hw) as [Hvs Hve].
  assert (Hout : t ∉ instants); [| split; [done | by rewrite decide_False]].
  intros [_ Hfree]%availableInstants_elem; [| done..].
  assert (Hblocked : blocked (Appointment_find db (doctor_id doctor) ws we) t
                     = true); [| congruence].
  apply isSlotTaken_true. exists appointment. split.
  - apply Appointment_find_elem. split; [by exists id |]. split; [done | lia].
  - apply (overlaps_true t appointment d); [done | done | by rewrite Hself |].
    rewrite Hself. lia.
Qed.

Lemma put_validates_against_all_witness :
  let db := (post db0 (booking 1 "2024-05-01T09:00:00.000Z" (Some 30))).2 in
  put parse db 1 (mkPutBody (Some "2024-05-01T09:00:00.000Z") (Some 45))
  = (BadRequest SlotUnavailable, db).
Proof.
  cbv zeta.
  destruct (put_validates_against_all parse
              (post db0 (booking 1 "2024-05-01T09:00:00.000Z" (Some 30))).2
              1 (mkPutBody (Some "2024-05-01T09:00:00.000Z") (Some 45))
              "2024-05-01T09:00:00.000Z" 1714554000000 45
              (mkAppointment 1 1 1714554000000 (Some 30) "checkup" "Mira" "")
              drAda 1714554000000 1714557600000) as (_ & Hself).
  - reflexivity.
  - discriminate.
  - vm_compute. reflexivity.
  - reflexivity.
  - discriminate.
  - vm_compute. reflexivity.
  - vm_compute. reflexivity.
  - vm_compute. reflexivity.
  - apply (Hself 30).
    + reflexivity.
    + reflexivity.
    + lia.
    + reflexivity.
    + lia.
    + unfold validTime, maxTime. lia.
    + unfold validTime, maxTime. lia.
Defined.

(** A date with a numeric offset is outside [JSDate.parse]; a constructor
    that reads "2024-05-01T10:30:00+01:00" as 09:30 UTC, as the engine
    does, has the update accepted, the slots being those of the day
    named in the string. *)
Example put_accepts_offset_date :
  let newDate s :=
    if String.eqb s "2024-05-01T10:30:00+01:00" then Some 1714555800000
    else parse s in
  let db := (post db0 (booking 1 "2024-05-01T09:00:00.000Z" (Some 30))).2 in
  let body := mkPutBody (Some "2024-05-01T10:30:00+01:00") (Some 20) in
  let updated := mkAppointment 1 1 1714555800000 (Some 20) "checkup" "Mira" "" in
  parse "2024-05-01T10:30:00+01:00" = None
  /\ put newDate db 1 body = (OkJson updated, save db updated).
Proof. cbv zeta. split; vm_compute; reflexivity. Qed.

(** C7 as stated fails: the appointment booked at 09:00 for 30 minutes
    cannot be given a new duration at its own instant, although 09:00 is
    free as soon as the appointment itself is left out. *)
Lemma put_blocked_by_own_slot :
  let db := (post db0 (booking 1 "2024-05-01T09:00:00.000Z" (Some 30))).2 in
  Appointment_findById db 1
  = Some (mkAppointment 1 1 1714554000000 (Some 30) "checkup" "Mira" "")
  /\ put parse db 1 (mkPutBody (Some "2024-05-01T09:00:00.000Z") (Some 45))
     = (BadRequest SlotUnavailable, db)
  /\ calculateAvailableSlots db drAda "2024-05-01"
     = Ok ["2024-05-01T09:30:00.000Z"]
  /\ calculateAvailableSlots (deleteAppointment db 1).2 drAda "2024-05-01"
     = Ok ["2024-05-01T09:00:00.000Z"; "2024-05-01T09:30:00.000Z"].
Proof.
  cbv zeta. repeat split; vm_compute; reflexivity.
Qed.

(** C9: DELETE answers 204 whether or not an appointment with the id
    exists; afterwards no appointment has the id, an absent id leaves the
    collection as it was, and a repeated delete has the same outcome. *)
Theorem delete_always_succeeds db id :
  (deleteAppointment db id).1 = NoContent
  /\ Appointment_findById (deleteAppointment db id).2 id = None
  /\ deleteAppointment (deleteAppointment db id).2 id = deleteAppointment db id
  /\ (Appointment_findById db id = None -> deleteAppointment db id = (NoContent, db)).
Proof.
  unfold deleteAppointment, Appointment_findById. cbn [fst snd Appointments Doctors].
  split; [done |].
  split; [apply lookup_delete_eq |].
  split.
  - do 2 f_equal. apply map_eq. intros j.
    destruct (decide (id = j)) as [-> | Hne];
      [by rewrite !lookup_delete_eq | by rewrite !lookup_delete_ne].
  - intros Hnone. destruct db as [ds appts]. cbn [Appointments Doctors] in *.
    do 2 f_equal. apply map_eq. intros j.
    destruct (decide (id = j)) as [-> | Hne];
      [by rewrite lookup_delete_eq | by rewrite lookup_delete_ne].
Qed.

Lemma delete_always_succeeds_witness :
  deleteAppointment db0 7 = (NoContent, db0).
Proof.
  destruct (delete_always_succeeds db0 7) as (_ & _ & _ & Habsent).
  apply Habsent. reflexivity.
Defined.

(** C10: POST never looks at the requested duration.  A request that
    passes normalization, slot validation and the exact-instant check is
    stored with whatever duration it carries, absent, zero or negative.
    An appointment stored without duration overlaps no slot at all, and one
    with a duration of zero or less does not block the slot that starts at
    its own instant. *)
Theorem post_stores_any_duration db body requested t doctor ws we :
  post_date body = Some requested ->
  requested <> "" ->
  normalizedInstant requested = Some t ->
  Doctor_findById db (post_doctorId body) = Some doctor ->
  workingWindow doctor (splitT0 (toISOString t)) = Ok (ws, we) ->
  t ∈ availableInstants (Appointment_find db (doctor_id doctor) ws we) ws we ->
  Appointment_findOne db (post_doctorId body) t = None ->
  let a := newAppointment db body t in
  post db body = (Created a, save db a)
  /\ Appointment_findById (save db a) (appointment_id a) = Some a
  /\ date a = t
  /\ duration a = post_duration body
  /\ (post_duration body = None ->
      forall s next, overlaps s next a = false)
  /\ (forall d, post_duration body = Some d -> d <= 0 ->
      overlaps t (TimeClip (t + 30 * 60000)) a = false).
Proof.
  intros Hdate Hne Hnorm Hdoc Hw Hin Hnone a.
  split.
  { rewrite (post_after_lookup db body requested t doctor ws we) by done.
    by rewrite decide_True, Hnone. }
  split; [apply lookup_insert_eq |].
  split; [done |]. split; [done |]. split.
  - intros Hd s next. unfold overlaps. cbn [a newAppointment duration].
    by rewrite Hd.
  - intros d Hd Hle. unfold overlaps. cbn [a newAppointment duration date].
    rewrite Hd. cbn [mbind option_bind].
    destruct (TimeClip (t + d * 60000)) as [e|] eqn:He; [| done].
    apply TimeClip_Some in He as [-> _]. cbn [date_lt].
    destruct (Z.ltb_spec t (t + d * 60000)); [lia | done].
Qed.

Lemma post_stores_any_duration_witness :
  let body := booking 1 "2024-05-01T09:00:00.000Z" None in
  let a := newAppointment db0 body 1714554000000 in
  post db0 body = (Created a, save db0 a)
  /\ duration a = None
  /\ calculateAvailableSlots (save db0 a) drAda "2024-05-01"
     = Ok ["2024-05-01T09:00:00.000Z"; "2024-05-01T09:30:00.000Z"].
Proof.
  cbv zeta.
  destruct (post_stores_any_duration db0
              (booking 1 "2024-05-01T09:00:00.000Z" None)
              "2024-05-01T09:00:00.000Z" 1714554000000 drAda
              1714554000000 1714557600000) as (Hpost & _ & _ & Hd & _).
  - reflexivity.
  - discriminate.
  - vm_compute. reflexivity.
  - vm_compute. reflexivity.
  - vm_compute. reflexivity.
  - replace (availableInstants _ _ _)
      with [1714554000000; 1714555800000] by (vm_compute; reflexivity).
    apply list_elem_of_here.
  - vm_compute. reflexivity.
  - split; [exact Hpost |]. split; [exact Hd |]. vm_compute. reflexivity.
Defined.

(** The scenario of the specification: hours 09:00-10:00, a first booking
    at 09:00 for 30 minutes, then the same slot again, 09:15, and 09:30. *)
Example booking_scenario :
  let db1 := (post db0 (booking 1 "2024-05-01T09:00:00.000Z" (Some 30))).2 in
  calculateAvailableSlots db0 drAda "2024-05-01"
  = Ok ["2024-05-01T09:00:00.000Z"; "2024-05-01T09:30:00.000Z"]
  /\ (post db0 (booking 1 "2024-05-01T09:00:00.000Z" (Some 30))).1
     = Created (mkAppointment 1 1 1714554000000 (Some 30) "checkup" "Mira" "")
  /\ (post db1 (booking 1 "2024-05-01T09:00:00.000Z" (Some 30))).1
     = BadRequest SlotUnavailable
  /\ (post db1 (booking 1 "2024-05-01T09:15:00.000Z" (Some 30))).1
     = BadRequest SlotUnavailable
  /\ (post db1 (booking 1 "2024-05-01T09:30:00.000Z" (Some 30))).1
     = Created (mkAppointment 2 1 1714555800000 (Some 30) "checkup" "Mira" "")
  /\ (post db0 (booking 9 "2024-05-01T09:00:00.000Z" (Some 30))).1
     = NotFound DoctorNotFound
  /\ (post db0 (booking 4 "2024-05-01T09:00:00.000Z" (Some 30))).1
     = Unhandled InvalidWorkingHours
  /\ (post db0 (mkPostBody 1 None (Some 30) "" "" "")).1
     = BadRequest MissingDate.
Proof. vm_compute. repeat split. Qed.

(** ** Two POST requests in flight *)

(** Served alone, a request takes its four steps and answers as [post]. *)
Lemma post_steps_post db body :
  post_steps 4 db (post_begin body) = (Finished (post db body).1, (post db body).2).
Proof.
  unfold post, post_begin, calculateAvailableSlots.
  destruct (post_date body) as [requested|]; [| done].
  destruct (String.eqb requested ""); [done |].
  destruct (processDate requested) as [processedDate|]; [| done].
  cbn [post_steps post_step].
  destruct (Doctor_findById db (post_doctorId body)) as [doctor|]; [| done].
  destruct (workingWindow doctor (splitT0 processedDate)) as [[ws we]|];
    [| done].
  cbn [post_steps post_step].
  destruct (mapM normalizeSlot _) as [normalizedSlots|]; [| done].
  destruct (negb (includes normalizedSlots processedDate)); [done |].
  cbn [post_steps post_step].
  destruct (parse processedDate) as [instant|]; [| done].
  by destruct (Appointment_findOne db (post_doctorId body) instant).
Qed.

Lemma system_step_First db st1 st2 st1' db' :
  post_step db st1 = (st1', db') ->
  system_step (mkSystem db st1 st2) First = mkSystem db' st1' st2.
Proof. intros H. unfold system_step. cbn [database first second]. by rewrite H. Qed.

Lemma system_step_Second db st1 st2 st2' db' :
  post_step db st2 = (st2', db') ->
  system_step (mkSystem db st1 st2) Second = mkSystem db' st1 st2'.
Proof. intros H. unfold system_step. cbn [database first second]. by rewrite H. Qed.

(** Whenever a request would be admitted alone, two copies of it running
    alternately are both admitted, as two distinct appointments of the same
    doctor at the same instant. *)
Lemma alternating_posts_both_commit db body a db' :
  post db body = (Created a, db') ->
  exists a2,
    run alternating db body body
    = mkSystem (save db' a2) (Finished (Created a)) (Finished (Created a2))
    /\ appointment_id a2 <> appointment_id a
    /\ doctorId a2 = doctorId a
    /\ date a2 = date a
    /\ Appointment_findById (save db' a2) (appointment_id a) = Some a
    /\ Appointment_findById (save db' a2) (appointment_id a2) = Some a2.
Proof.
  intros Hpost. unfold post, calculateAvailableSlots in Hpost.
  destruct (post_date body) as [requested|] eqn:Hdate; [| done].
  destruct (String.eqb requested "") eqn:Hne; [done |].
  destruct (processDate requested) as [processedDate|] eqn:Hproc; [| done].
  destruct (Doctor_findById db (post_doctorId body)) as [doctor|] eqn:Hdoc;
    [| done].
  destruct (workingWindow doctor (splitT0 processedDate)) as [[ws we]|] eqn:Hw;
    [| done].
  destruct (mapM normalizeSlot _) as [normalizedSlots|] eqn:Hmap; [| done].
  destruct (negb (includes normalizedSlots processedDate)) eqn:Hinc; [done |].
  destruct (parse processedDate) as [instant|] eqn:Hparse; [| done].
  destruct (Appointment_findOne db (post_doctorId body) instant) eqn:Hone;
    [done |].
  injection Hpost as <- <-.
  set (a := newAppointment db body instant).
  assert (H0 : post_begin body = AtDoctorFind body processedDate)
    by (unfold post_begin; by rewrite Hdate, Hne, Hproc).
  assert (H1 : post_step db (AtDoctorFind body processedDate)
               = (AtAppointmentFind body processedDate doctor ws we, db))
    by (cbn [post_step]; by rewrite Hdoc, Hw).
  assert (H2 : post_step db (AtAppointmentFind body processedDate doctor ws we)
               = (AtFindOne body processedDate, db))
    by (cbn [post_step]; by rewrite Hmap, Hinc).
  assert (H3 : post_step db (AtFindOne body processedDate)
               = (AtSave body instant, db))
    by (cbn [post_step]; by rewrite Hparse, Hone).
  exists (newAppointment (save db a) body instant).
  split.
  { unfold run, alternating. rewrite H0. cbn [fold_left].
    rewrite (system_step_First _ _ _ _ _ H1), (system_step_Second _ _ _ _ _ H1).
    rewrite (system_step_First _ _ _ _ _ H2), (system_step_Second _ _ _ _ _ H2).
    rewrite (system_step_First _ _ _ _ _ H3), (system_step_Second _ _ _ _ _ H3).
    reflexivity. }
  assert (Hfresh : appointment_id (newAppointment (save db a) body instant)
                   <> appointment_id a).
  { intros Heq.
    apply (is_fresh (dom (Appointments (save db a)))).
    change (fresh (dom (Appointments (save db a))))
      with (appointment_id (newAppointment (save db a) body instant)).
    rewrite Heq. unfold save. cbn [Appointments].
    apply elem_of_dom. rewrite lookup_insert_eq. by eexists. }
  split; [done |]. split; [done |]. split; [done |].
  unfold Appointment_findById, save. cbn [Appointments].
  split.
  - rewrite lookup_insert_ne by done. apply lookup_insert_eq.
  - apply lookup_insert_eq.
Qed.

Lemma Appointment_findOne_saved db (a : Appointment) :
  is_Some (Appointment_findOne (save db a) (doctorId a) (date a)).
Proof.
  unfold Appointment_findOne.
  destruct (List.find _ _) as [x|] eqn:Hfind; [by eexists |].
  exfalso.
  assert (Hin : In a (documents (Appointments (save db a)))).
  { apply list_elem_of_In. unfold documents, save. cbn [Appointments].
    apply list_elem_of_fmap. exists (appointment_id a, a). split; [done |].
    apply elem_of_map_to_list, lookup_insert_eq. }
  pose proof (find_none _ _ Hfind a Hin) as Hf. cbn beta in Hf.
  by rewrite Pos.eqb_refl, Z.eqb_refl in Hf.
Qed.

(** Served one after the other, two requests for the same doctor and
    instant are never both admitted: the second is refused at the slot
    validation or at the exact-instant check. *)
Lemma sequential_posts_exclusive db body a db' :
  post db body = (Created a, db') ->
  post db' body = (BadRequest SlotUnavailable, db')
  \/ post db' body = (BadRequest SlotAlreadyBooked, db').
Proof.
  intros Hpost. pose proof Hpost as Hfacts.
  unfold post, calculateAvailableSlots in Hfacts.
  destruct (post_date body) as [requested|] eqn:Hdate; [| done].
  destruct (String.eqb requested "") eqn:Hne; [done |].
  apply String.eqb_neq in Hne.
  assert (Hnorm : exists t, normalizedInstant requested = Some t).
  { unfold processDate, normalizedInstant in *.
    destruct (sanitizeDate requested) as [m|]; [| done].
    cbn [mbind option_bind]. destruct (parse m) as [t|]; [by exists t | done]. }
  destruct Hnorm as [t Hnorm].
  rewrite (processDate_normalizedInstant _ _ Hnorm) in Hfacts.
  destruct (Doctor_findById db (post_doctorId body)) as [doctor|] eqn:Hdoc;
    [| done].
  destruct (workingWindow doctor (splitT0 (toISOString t))) as [[ws we]|] eqn:Hw;
    [| done].
  rewrite (post_after_lookup db body requested t doctor ws we) in Hpost by done.
  destruct (decide _); [| done].
  destruct (Appointment_findOne db (post_doctorId body) t); [done |].
  injection Hpost as <- <-.
  rewrite (post_after_lookup _ body requested t doctor ws we) by done.
  destruct (decide _); [| by left].
  destruct (Appointment_findOne_saved db (newAppointment db body t)) as [x Hx].
  cbn [newAppointment doctorId date] in Hx. rewrite Hx. by right.
Qed.

(** C1 fails on the server: two requests for Dr Ada at 09:00 on the first
    of May, resumed alternately at their [await]s, both answer 201, and the
    collection ends with two appointments of the same doctor at the same
    instant.  Served one after the other, the second is refused. *)
Theorem concurrent_posts_double_book :
  let body := booking 1 "2024-05-01T09:00:00.000Z" (Some 30) in
  let a1 := mkAppointment 1 1 1714554000000 (Some 30) "checkup" "Mira" "" in
  let a2 := mkAppointment 2 1 1714554000000 (Some 30) "checkup" "Mira" "" in
  let sys := run alternating db0 body body in
  first sys = Finished (Created a1)
  /\ second sys = Finished (Created a2)
  /\ Appointment_findById (database sys) 1 = Some a1
  /\ Appointment_findById (database sys) 2 = Some a2
  /\ doctorId a1 = doctorId a2
  /\ date a1 = date a2
  /\ (post (post db0 body).2 body).1 = BadRequest SlotUnavailable.
Proof.
  cbv zeta. repeat split; vm_compute; reflexivity.
Qed.

(** * Further properties of the handlers *)

(** ** What the writes change *)

Lemma newAppointment_fresh db body t :
  Appointments db !! appointment_id (newAppointment db body t) = None.
Proof.
  cbn [newAppointment appointment_id].
  apply not_elem_of_dom, is_fresh.
Qed.

(** X1: POST never touches the doctors and never changes or removes a
    stored appointment.  When it answers 201 it has inserted exactly the
    returned document under an [_id] that was not in use, carrying the
    doctor, duration, type, patient and notes of the request; with every
    other answer the database is left as it was. *)
Theorem post_effects db body :
  Doctors (post db body).2 = Doctors db
  /\ (forall id x,
        Appointments db !! id = Some x ->
        Appointments (post db body).2 !! id = Some x)
  /\ match (post db body).1 with
     | Created a =>
         Appointments db !! appointment_id a = None
         /\ (post db body).2 = save db a
         /\ doctorId a = post_doctorId body
         /\ duration a = post_duration body
         /\ appointmentType a = post_appointmentType body
         /\ patientName a = post_patientName body
         /\ notes a = post_notes body
     | _ => (post db body).2 = db
     end.
Proof.
  assert (Hcases :
    (exists t, post db body
               = (Created (newAppointment db body t),
                  save db (newAppointment db body t)))
    \/ ((post db body).2 = db
        /\ match (post db body).1 with Created _ => False | _ => True end)).
  { unfold post.
    destruct (post_date body) as [requested|]; [| by right].
    destruct (String.eqb requested ""); [by right |].
    destruct (processDate requested) as [processedDate|]; [| by right].
    destruct (Doctor_findById db (post_doctorId body)) as [doctor|];
      [| by right].
    destruct (calculateAvailableSlots _ _ _) as [slots|]; [| by right].
    destruct (mapM normalizeSlot slots) as [normalizedSlots|]; [| by right].
    destruct (negb _); [by right |].
    destruct (parse processedDate) as [instant|]; [| by right].
    destruct (Appointment_findOne _ _ _); [by right |].
    left. by exists instant. }
  destruct Hcases as [[t Hpost] | [Hdb Hresp]].
  - rewrite Hpost. cbn [fst snd].
    pose proof (newAppointment_fresh db body t) as Hfresh.
    split; [done |]. split; [| done].
    intros id x Hx. unfold save. cbn [Appointments].
    rewrite lookup_insert_ne; [done |]. intros <-. congruence.
  - rewrite Hdb. split; [done |]. split; [done |].
    by destruct (post db body).1.
Qed.

(** X2: PUT never touches the doctors, never adds or removes a document
    and never changes another appointment than the one addressed.  When it
    answers 200 the addressed appointment keeps its doctor, type, patient
    and notes and takes the requested duration; with every other answer the
    database is left as it was. *)
Theorem put_effects newDate db id body :
  Doctors (put newDate db id body).2 = Doctors db
  /\ dom (Appointments (put newDate db id body).2) = dom (Appointments db)
  /\ (forall j, j <> id ->
        Appointments (put newDate db id body).2 !! j = Appointments db !! j)
  /\ match (put newDate db id body).1 with
     | OkJson a' =>
         exists a,
           Appointments db !! id = Some a
           /\ Appointments (put newDate db id body).2 !! id = Some a'
           /\ appointment_id a' = id
           /\ doctorId a' = doctorId a
           /\ duration a' = put_duration body
           /\ appointmentType a' = appointmentType a
           /\ patientName a' = patientName a
           /\ notes a' = notes a
     | _ => (put newDate db id body).2 = db
     end.
Proof.
  assert (Hcases :
    (exists a t minutes,
        Appointments db !! id = Some a
        /\ put_duration body = Some minutes
        /\ put newDate db id body
           = (OkJson (mkAppointment id (doctorId a) t (Some minutes)
                        (appointmentType a) (patientName a) (notes a)),
              save db (mkAppointment id (doctorId a) t (Some minutes)
                         (appointmentType a) (patientName a) (notes a))))
    \/ ((put newDate db id body).2 = db
        /\ match (put newDate db id body).1 with OkJson _ => False | _ => True end)).
  { unfold put.
    destruct (put_date body) as [requested|]; [| by right].
    destruct (if String.eqb requested "" then None
              else newDate requested ≫= TimeClip)
      as [instant|]; [| by right].
    destruct (put_duration body) as [[|p|p]|] eqn:Hdur; [by right | | | by right].
    all: unfold Appointment_findById;
      destruct (Appointments db !! id) as [a|] eqn:Ha; [| by right];
      destruct (Doctor_findById db (doctorId a)) as [doctor|]; [| by right];
      destruct (calculateAvailableSlotsWith _ _ _ _) as [slots|]; [| by right];
      destruct (negb _); [by right |];
      left; by eexists a, instant, _. }
  destruct Hcases as [(a & t & minutes & Ha & Hdur & Hput) | [Hdb Hresp]].
  - rewrite Hput. cbn [fst snd]. unfold save. cbn [Appointments Doctors appointment_id].
    split; [done |]. split.
    { apply dom_insert_lookup_L. by eexists. }
    split; [intros j Hj; by rewrite lookup_insert_ne |].
    exists a. rewrite lookup_insert_eq. by rewrite Hdur.
  - rewrite Hdb. split; [done |]. split; [done |]. split; [done |].
    by destruct (put newDate db id body).1.
Qed.

(** ** Reading back what was written *)

Lemma post_Created_inv db body a db' :
  post db body = (Created a, db') ->
  exists requested t doctor ws we,
    post_date body = Some requested
    /\ requested <> ""
    /\ normalizedInstant requested = Some t
    /\ Doctor_findById db (post_doctorId body) = Some doctor
    /\ workingWindow doctor (splitT0 (toISOString t)) = Ok (ws, we)
    /\ t ∈ availableInstants (Appointment_find db (doctor_id doctor) ws we) ws we
    /\ Appointment_findOne db (post_doctorId body) t = None
    /\ a = newAppointment db body t
    /\ db' = save db a.
Proof.
  intros Hpost. pose proof Hpost as Hfacts.
  unfold post, calculateAvailableSlots in Hfacts.
  destruct (post_date body) as [requested|] eqn:Hdate; [| done].
  destruct (String.eqb requested "") eqn:Hne; [done |].
  apply String.eqb_neq in Hne.
  assert (Hnorm : exists t, normalizedInstant requested = Some t).
  { unfold processDate, normalizedInstant in *.
    destruct (sanitizeDate requested) as [m|]; [| done].
    cbn [mbind option_bind]. destruct (parse m) as [t|]; [by exists t | done]. }
  destruct Hnorm as [t Hnorm].
  rewrite (processDate_normalizedInstant _ _ Hnorm) in Hfacts.
  destruct (Doctor_findById db (post_doctorId body)) as [doctor|] eqn:Hdoc;
    [| done].
  destruct (workingWindow doctor (splitT0 (toISOString t))) as [[ws we]|] eqn:Hw;
    [| done].
  clear Hfacts.
  rewrite (post_after_lookup db body requested t doctor ws we) in Hpost by done.
  destruct (decide _) as [Hin|]; [| done].
  destruct (Appointment_findOne db (post_doctorId body) t) eqn:Hone; [done |].
  injection Hpost as <- <-.
  by exists requested, t, doctor, ws, we.
Qed.

(** X3: an appointment answered with 201 can be read back: GET
    /appointments/:id with its [_id] returns that very document, populated
    with the doctor the request named. *)
Theorem post_then_get db body a db' :
  post db body = (Created a, db') ->
  exists doctor,
    Doctor_findById db (post_doctorId body) = Some doctor
    /\ getAppointment db' (appointment_id a) = Json (mkPopulated a (Some doctor)).
Proof.
  intros (requested & t & doctor & ws & we & _ & _ & _ & Hdoc & _ & _ & _
          & -> & ->)%post_Created_inv.
  exists doctor. split; [done |].
  unfold getAppointment, Appointment_findById, save. cbn [Appointments].
  rewrite lookup_insert_eq. unfold populate, Doctor_findById. cbn [Doctors].
  by rewrite <- Hdoc.
Qed.

Lemma post_then_get_witness :
  getAppointment (post db0 (booking 1 "2024-05-01T09:00:00.000Z" (Some 30))).2 1
  = Json (mkPopulated
            (mkAppointment 1 1 1714554000000 (Some 30) "checkup" "Mira" "")
            (Some drAda)).
Proof.
  destruct (post_then_get db0 (booking 1 "2024-05-01T09:00:00.000Z" (Some 30))
              (mkAppointment 1 1 1714554000000 (Some 30) "checkup" "Mira" "")
              (post db0 (booking 1 "2024-05-01T09:00:00.000Z" (Some 30))).2)
    as (doctor & Hdoc & Hget).
  - vm_compute. reflexivity.
  - cbn [appointment_id] in Hget. rewrite Hget. f_equal. f_equal.
    rewrite <- Hdoc. vm_compute. reflexivity.
Defined.

(** X4: deleting the appointment a POST has just created leaves the two
    collections as they were before the POST, so the same request is
    admitted again, with a document that carries the same doctor, instant,
    duration, type, patient and notes (nothing is said of its [_id]). *)
Theorem post_then_delete db body a db' :
  post db body = (Created a, db') ->
  deleteAppointment db' (appointment_id a) = (NoContent, db)
  /\ exists again,
       (post (deleteAppointment db' (appointment_id a)).2 body).1
       = Created again
       /\ doctorId again = doctorId a
       /\ date again = date a
       /\ duration again = duration a
       /\ appointmentType again = appointmentType a
       /\ patientName again = patientName a
       /\ notes again = notes a.
Proof.
  intros Hpost.
  assert (Hdel : deleteAppointment db' (appointment_id a) = (NoContent, db)).
  { apply post_Created_inv in Hpost
      as (requested & t & doctor & ws & we & _ & _ & _ & _ & _ & _ & _ & -> & ->).
    unfold deleteAppointment, save. cbn [Doctors Appointments].
    rewrite delete_insert_id by apply newAppointment_fresh.
    by destruct db. }
  split; [done |]. exists a. rewrite Hdel. cbn [snd]. by rewrite Hpost.
Qed.

Lemma post_then_delete_witness :
  deleteAppointment
    (post db0 (booking 1 "2024-05-01T09:00:00.000Z" (Some 30))).2 1
  = (NoContent, db0).
Proof.
  apply (post_then_delete db0 (booking 1 "2024-05-01T09:00:00.000Z" (Some 30))
           (mkAppointment 1 1 1714554000000 (Some 30) "checkup" "Mira" "")).
  vm_compute. reflexivity.
Defined.

(** X5: an update answered with 200 can be read back: GET
    /appointments/:id returns the updated document, and the instant stored
    is the one the requested date denotes. *)
Theorem put_then_get newDate db id body a' db' :
  put newDate db id body = (OkJson a', db') ->
  getAppointment db' id = Json (populate db a')
  /\ exists requested,
       put_date body = Some requested
       /\ newDate requested = Some (date a')
       /\ validTime (date a').
Proof.
  intros Hput. unfold put in Hput.
  destruct (put_date body) as [requested|]; [| done].
  destruct (String.eqb requested ""); [done |].
  destruct (newDate requested ≫= TimeClip) as [instant|] eqn:Hparse;
    [| done].
  assert (Hnew : newDate requested = Some instant /\ validTime instant).
  { destruct (newDate requested) as [t'|]; [| done].
    cbn [mbind option_bind] in Hparse.
    by apply TimeClip_Some in Hparse as [-> ?]. }
  destruct (put_duration body) as [[|p|p]|]; [done | | | done].
  all: destruct (Appointment_findById db id) as [a|]; [| done];
    destruct (Doctor_findById db (doctorId a)) as [doctor|]; [| done];
    destruct (calculateAvailableSlotsWith _ _ _ _) as [slots|]; [| done];
    destruct (negb _); [done |];
    injection Hput as <- <-;
    (split; [| by exists requested]);
    unfold getAppointment, Appointment_findById, save;
    cbn [Appointments appointment_id];
    by rewrite lookup_insert_eq.
Qed.

Lemma put_then_get_witness :
  let db := (post db0 (booking 1 "2024-05-01T09:00:00.000Z" (Some 30))).2 in
  let body := mkPutBody (Some "2024-05-01T09:30:00.000Z") (Some 20) in
  let a' := mkAppointment 1 1 1714555800000 (Some 20) "checkup" "Mira" "" in
  getAppointment (put parse db 1 body).2 1 = Json (populate db a').
Proof.
  cbv zeta.
  apply (put_then_get parse _ 1
           (mkPutBody (Some "2024-05-01T09:30:00.000Z") (Some 20))).
  vm_compute. reflexivity.
Defined.

(** ** Availability and the stored appointments *)

Lemma blocked_mono l1 l2 s :
  (forall x : Appointment, x ∈ l1 -> x ∈ l2) ->
  blocked l1 s = true -> blocked l2 s = true.
Proof.
  unfold blocked. rewrite !isSlotTaken_true.
  intros Hsub (x & Hx & Ho). exists x. auto.
Qed.

Lemma filter_sublist_mono {A} (f g : A -> bool) (l : list A) :
  (forall x, f x = true -> g x = true) ->
  sublist (List.filter f l) (List.filter g l).
Proof.
  intros Hfg. induction l as [|x l IH]; cbn [List.filter]; [constructor |].
  destruct (f x) eqn:Hf.
  - rewrite (Hfg x Hf). by constructor.
  - destruct (g x); [by constructor | done].
Qed.

(** With fewer appointments fetched, no slot is lost. *)
Lemma calculateAvailableSlots_antitone db1 db2 doctor day slots1 :
  (forall ws we x,
     x ∈ Appointment_find db2 (doctor_id doctor) ws we ->
     x ∈ Appointment_find db1 (doctor_id doctor) ws we) ->
  calculateAvailableSlots db1 doctor day = Ok slots1 ->
  exists slots2,
    calculateAvailableSlots db2 doctor day = Ok slots2
    /\ sublist slots1 slots2.
Proof.
  intros Hsub Hslots.
  destruct (workingWindow doctor day) as [[ws we]|e] eqn:Hw;
    [| unfold calculateAvailableSlots in Hslots; by rewrite Hw in Hslots].
  destruct (workingWindow_valid _ _ _ _ Hw) as [Hvs Hve].
  rewrite (calculateAvailableSlots_instants _ _ _ _ _ Hw) in Hslots.
  injection Hslots as <-.
  eexists. split; [by apply calculateAvailableSlots_instants |].
  unfold validTime in *.
  rewrite !availableInstants_grid by lia.
  apply fmap_sublist, filter_sublist_mono.
  unfold free. intros s Hs. apply negb_true_iff in Hs. apply negb_true_iff.
  apply not_true_is_false. intros Hb.
  apply (blocked_mono _ _ s (Hsub ws we)) in Hb. congruence.
Qed.

Lemma Appointment_find_save db a doc from to x :
  Appointments db !! appointment_id a = None ->
  x ∈ Appointment_find (save db a) doc from to
  <-> x ∈ Appointment_find db doc from to
      \/ (x = a /\ doctorId a = doc /\ from <= date a < to).
Proof.
  intros Hfresh. rewrite !Appointment_find_elem. unfold save. cbn [Appointments].
  split.
  - intros [[id Hid] Hx].
    destruct (decide (appointment_id a = id)) as [<- | Hne].
    + rewrite lookup_insert_eq in Hid. injection Hid as <-. by right.
    + rewrite lookup_insert_ne in Hid by done. left. split; [by exists id | done].
  - intros [[[id Hid] Hx] | (-> & Hx)].
    + split; [| done]. exists id. rewrite lookup_insert_ne; [done |].
      intros <-. congruence.
    + split; [| done]. exists (appointment_id a). apply lookup_insert_eq.
Qed.

Lemma Appointment_find_delete db id doc from to x :
  x ∈ Appointment_find (deleteAppointment db id).2 doc from to ->
  x ∈ Appointment_find db doc from to.
Proof.
  rewrite !Appointment_find_elem. unfold deleteAppointment.
  cbn [snd Appointments].
  intros [[j Hj] Hx]. split; [| done]. exists j.
  destruct (decide (id = j)) as [<- | Hne];
    [by rewrite lookup_delete_eq in Hj | by rewrite lookup_delete_ne in Hj].
Qed.

(** X6: storing a new appointment never makes a slot available, and
    deleting one never takes a slot away: the slots listed after a save
    are a sublist of those listed before, and those listed before a delete
    a sublist of those listed after. *)
Theorem availability_antitone db doctor day slots a id :
  calculateAvailableSlots db doctor day = Ok slots ->
  Appointments db !! appointment_id a = None ->
  (exists slots',
     calculateAvailableSlots (save db a) doctor day = Ok slots'
     /\ sublist slots' slots)
  /\ (exists slots',
        calculateAvailableSlots (deleteAppointment db id).2 doctor day = Ok slots'
        /\ sublist slots slots').
Proof.
  intros Hslots Hfresh. split.
  - destruct (workingWindow doctor day) as [[ws we]|e] eqn:Hw;
      [| unfold calculateAvailableSlots in Hslots; by rewrite Hw in Hslots].
    destruct (calculateAvailableSlots_antitone (save db a) db doctor day
                (map toISOString
                   (availableInstants
                      (Appointment_find (save db a) (doctor_id doctor) ws we)
                      ws we))) as (slots2 & Hs2 & Hsub).
    + intros ws' we' x Hx. apply Appointment_find_save; auto.
    + by apply calculateAvailableSlots_instants.
    + eexists. split; [by apply calculateAvailableSlots_instants |].
      congruence.
  - apply (calculateAvailableSlots_antitone db); [| done].
    intros ws we x. apply Appointment_find_delete.
Qed.

Lemma availability_antitone_witness :
  let a := mkAppointment 1 1 1714554000000 (Some 30) "checkup" "Mira" "" in
  (exists slots',
     calculateAvailableSlots (save db0 a) drAda "2024-05-01" = Ok slots'
     /\ sublist slots' ["2024-05-01T09:00:00.000Z"; "2024-05-01T09:30:00.000Z"])
  /\ (exists slots',
        calculateAvailableSlots (deleteAppointment db0 1).2 drAda "2024-05-01"
        = Ok slots'
        /\ sublist ["2024-05-01T09:00:00.000Z"; "2024-05-01T09:30:00.000Z"]
             slots').
Proof.
  cbv zeta.
  apply (availability_antitone db0 drAda "2024-05-01").
  - vm_compute. reflexivity.
  - vm_compute. reflexivity.
Defined.

Lemma blocked_same_elements l1 l2 s :
  (forall x : Appointment, x ∈ l1 <-> x ∈ l2) -> blocked l1 s = blocked l2 s.
Proof.
  intros Heq.
  destruct (blocked l1 s) eqn:H1, (blocked l2 s) eqn:H2; try done.
  - apply (blocked_mono l1 l2) in H1; [congruence | intros x; apply Heq].
  - apply (blocked_mono l2 l1) in H2; [congruence | intros x; apply Heq].
Qed.

(** X7: the slots of a doctor on a day depend only on that doctor's
    appointments that start within that day's working hours: storing an
    appointment of another doctor, or one that starts outside the window,
    changes nothing. *)
Theorem slots_ignore_unrelated db a doctor day :
  Appointments db !! appointment_id a = None ->
  doctorId a <> doctor_id doctor
  \/ (forall ws we,
        workingWindow doctor day = Ok (ws, we) -> ~ ws <= date a < we) ->
  calculateAvailableSlots (save db a) doctor day
  = calculateAvailableSlots db doctor day.
Proof.
  intros Hfresh Hunrelated.
  destruct (workingWindow doctor day) as [[ws we]|e] eqn:Hw;
    [| unfold calculateAvailableSlots; by rewrite Hw].
  destruct (workingWindow_valid _ _ _ _ Hw) as [Hvs Hve].
  rewrite !(calculateAvailableSlots_instants _ _ _ _ _ Hw).
  unfold validTime in *. rewrite !availableInstants_grid by lia.
  do 2 f_equal. apply filter_ext. intros s. unfold free. f_equal.
  apply blocked_same_elements. intros x.
  rewrite Appointment_find_save by done. split; [| auto].
  intros [Hx | (-> & Hdoc & Hin)]; [done |].
  destruct Hunrelated as [Hne | Hout]; [done |].
  by destruct (Hout ws we eq_refl).
Qed.

Lemma slots_ignore_unrelated_witness :
  calculateAvailableSlots
    (save db0 (mkAppointment 1 2 1714554000000 (Some 30) "checkup" "Mira" ""))
    drAda "2024-05-01"
  = calculateAvailableSlots db0 drAda "2024-05-01".
Proof.
  apply slots_ignore_unrelated.
  - vm_compute. reflexivity.
  - left. cbn. discriminate.
Defined.

(** X8: a doctor none of whose appointments starts within the working
    hours of the day has every slot of the grid listed. *)
Theorem no_appointments_full_grid db doctor day ws we :
  workingWindow doctor day = Ok (ws, we) ->
  (forall id a,
     Appointments db !! id = Some a ->
     doctorId a = doctor_id doctor -> ~ ws <= date a < we) ->
  calculateAvailableSlots db doctor day = Ok (map toISOString (grid ws we)).
Proof.
  intros Hw Hnone.
  destruct (workingWindow_valid _ _ _ _ Hw) as [Hvs Hve].
  rewrite (calculateAvailableSlots_instants _ _ _ _ _ Hw).
  unfold validTime in *. rewrite availableInstants_grid by lia.
  do 2 f_equal.
  assert (Hempty : Appointment_find db (doctor_id doctor) ws we = []).
  { apply elem_of_nil_inv. intros x ([id Hid] & Hdoc & Hin)%Appointment_find_elem.
    by apply (Hnone id x). }
  rewrite Hempty. clear.
  induction (grid ws we) as [|s l IH]; [done |].
  cbn [List.filter]. unfold free at 1, blocked. cbn. by rewrite IH.
Qed.

Lemma no_appointments_full_grid_witness :
  calculateAvailableSlots db0 drAda "2024-05-01"
  = Ok (map toISOString (grid 1714554000000 1714557600000)).
Proof.
  apply no_appointments_full_grid.
  - vm_compute. reflexivity.
  - intros id a Ha. vm_compute in Ha. discriminate.
Defined.

(** X9: the normalization of the slots at line 189 changes nothing: every
    slot returned by [calculateAvailableSlots] is already the ISO string of
    a valid date, so [new Date(slot).toISOString()] is [slot] and never
    throws. *)
Theorem normalizedSlots_are_slots db doctor day slots :
  calculateAvailableSlots db doctor day = Ok slots ->
  mapM normalizeSlot slots = Some slots.
Proof.
  intros Hslots.
  destruct (workingWindow doctor day) as [[ws we]|e] eqn:Hw;
    [| unfold calculateAvailableSlots in Hslots; by rewrite Hw in Hslots].
  destruct (workingWindow_valid _ _ _ _ Hw) as [Hvs Hve].
  rewrite (calculateAvailableSlots_instants _ _ _ _ _ Hw) in Hslots.
  injection Hslots as <-.
  by apply mapM_normalizeSlot, availableInstants_Forall_valid.
Qed.

Lemma normalizedSlots_are_slots_witness :
  mapM normalizeSlot ["2024-05-01T09:00:00.000Z"; "2024-05-01T09:30:00.000Z"]
  = Some ["2024-05-01T09:00:00.000Z"; "2024-05-01T09:30:00.000Z"].
Proof.
  apply (normalizedSlots_are_slots db0 drAda "2024-05-01").
  vm_compute. reflexivity.
Defined.

(** ** The two refusals of POST *)

Lemma overlaps_own_slot_false (b : Appointment) :
  overlaps (date b) (TimeClip (date b + 30 * 60000)) b = false ->
  duration b = None
  \/ (exists d, duration b = Some d /\ d <= 0)
  \/ (exists d, duration b = Some d /\ ~ validTime (date b + d * 60000))
  \/ ~ validTime (date b + 30 * 60000).
Proof.
  intros Hfalse.
  destruct (duration b) as [d|] eqn:Hd; [| by left].
  right.
  destruct (decide (d <= 0)) as [Hle | Hpos]; [left; by exists d |].
  right.
  destruct (decide (Z.abs (date b + d * 60000) <= maxTime)) as [Hend | Hend];
    [| left; by exists d].
  right. intros Hnext.
  assert (Htrue : overlaps (date b) (TimeClip (date b + 30 * 60000)) b = true)
    by (apply (overlaps_true (date b) b d); [done.. | lia]).
  congruence.
Qed.



(** X22: an appointment of positive duration stored for the requested
    doctor at the instant a request normalizes to (its interval ends being
    valid Date instants, the doctor stored under its [_id], the working
    hours valid) makes POST fail at the slot check, with "Time slot is not
    available": the exact-instant check of line 195 is not reached. *)
Theorem positive_duration_fails_earlier db body requested t doctor ws we id b d :
  post_date body = Some requested ->
  requested <> "" ->
  normalizedInstant requested = Some t ->
  Doctor_findById db (post_doctorId body) = Some doctor ->
  doctor_id doctor = post_doctorId body ->
  workingWindow doctor (splitT0 (toISOString t)) = Ok (ws, we) ->
  Appointments db !! id = Some b ->
  doctorId b = post_doctorId body ->
  date b = t ->
  duration b = Some d ->
  0 < d ->
  validTime (t + d * 60000) ->
  validTime (t + 30 * 60000) ->
  post db body = (BadRequest SlotUnavailable, db).
Proof.
  intros Hdate Hne Hnorm Hdoc Hkey Hw Hb Hbdoc Hbdate Hd Hpos Hend Hnext.
  rewrite (post_after_lookup db body requested t doctor ws we) by done.
  rewrite decide_False; [done |].
  destruct (workingWindow_valid _ _ _ _ Hw) as [Hvs Hve].
  intros [Hgrid Hfree]%availableInstants_elem; [| done..].
  apply grid_elem in Hgrid as [Hwin _].
  assert (Hblocked : blocked (Appointment_find db (doctor_id doctor) ws we) t
                     = true); [| congruence].
  apply isSlotTaken_true. exists b. split.
  - apply Appointment_find_elem. split; [by exists id |].
    split; [congruence | by rewrite Hbdate].
  - apply (overlaps_true t b d); [done | done | by rewrite Hbdate |].
    rewrite Hbdate. lia.
Qed.

Lemma positive_duration_fails_earlier_witness :
  let db := (post db0 (booking 1 "2024-05-01T09:00:00.000Z" (Some 45))).2 in
  post db (booking 1 "2024-05-01T09:00:00.000Z" (Some 30))
  = (BadRequest SlotUnavailable, db).
Proof.
  cbv zeta.
  apply (positive_duration_fails_earlier _ _
           "2024-05-01T09:00:00.000Z" 1714554000000 drAda
           1714554000000 1714557600000 1%positive
           (mkAppointment 1 1 1714554000000 (Some 45) "checkup" "Mira" "") 45).
  - reflexivity.
  - discriminate.
  - vm_compute. reflexivity.
  - vm_compute. reflexivity.
  - reflexivity.
  - vm_compute. reflexivity.
  - vm_compute. reflexivity.
  - reflexivity.
  - reflexivity.
  - reflexivity.
  - lia.
  - unfold validTime, maxTime. lia.
  - unfold validTime, maxTime. lia.
Defined.


Lemma db0_wellKeyed : wellKeyed db0.
Proof.
  intros id doctor Hdoc. unfold db0 in Hdoc. cbn [Doctors] in Hdoc.
  repeat (apply lookup_insert_Some in Hdoc as [[<- <-] | [_ Hdoc]]; [done |]).
  by rewrite lookup_empty in Hdoc.
Qed.


Lemma toISOString_nonempty t : validTime t -> toISOString t <> "".
Proof.
  intros Ht Heq. apply parse_toISOString in Ht. by rewrite Heq in Ht.
Qed.

(** X12: PUT has no exact-instant check.  Where POST refuses an instant
    with "Time slot is already booked", moving another appointment of the
    same doctor onto that instant is accepted, and the collection then
    holds two appointments of the doctor at the same instant.  The update
    sends the instant as its ISO string; the [Date] constructor reads the
    standard format as [JSDate.parse] does, whatever else it accepts. *)
Theorem put_bypasses_exact_check newDate db pbody requested t id appointment
  minutes :
  (forall s x, parse s = Some x -> newDate s = Some x) ->
  post_date pbody = Some requested ->
  normalizedInstant requested = Some t ->
  post db pbody = (BadRequest SlotAlreadyBooked, db) ->
  Appointment_findById db id = Some appointment ->
  doctorId appointment = post_doctorId pbody ->
  date appointment <> t ->
  minutes <> 0 ->
  exists a' j b,
    put newDate db id (mkPutBody (Some (toISOString t)) (Some minutes))
    = (OkJson a', save db a')
    /\ j <> id
    /\ Appointments (save db a') !! id = Some a'
    /\ Appointments (save db a') !! j = Some b
    /\ doctorId a' = doctorId b
    /\ date a' = t
    /\ date b = t.
Proof.
  intros Hnew Hdate Hnorm Hpost Happt Hsame Hmoved Hnz.
  pose proof (normalizedInstant_valid _ _ Hnorm) as Hvt.
  assert (Hne : requested <> "").
  { intros ->. unfold post in Hpost. by rewrite Hdate in Hpost. }
  pose proof Hpost as Hfacts. unfold post in Hfacts.
  rewrite Hdate in Hfacts. apply String.eqb_neq in Hne. rewrite Hne in Hfacts.
  apply String.eqb_neq in Hne.
  rewrite (processDate_normalizedInstant _ _ Hnorm) in Hfacts.
  destruct (Doctor_findById db (post_doctorId pbody)) as [doctor|] eqn:Hdoc;
    [| done].
  unfold calculateAvailableSlots in Hfacts.
  destruct (workingWindow doctor (splitT0 (toISOString t))) as [[ws we]|] eqn:Hw;
    [| done].
  clear Hfacts.
  rewrite (post_after_lookup db pbody requested t doctor ws we) in Hpost by done.
  destruct (decide _) as [Hin|]; [| done].
  destruct (Appointment_findOne db (post_doctorId pbody) t) as [b|] eqn:Hone;
    [| done].
  unfold Appointment_findOne in Hone. apply find_some in Hone as [Hb Hmatch].
  apply andb_true_iff in Hmatch as [Hbdoc%Pos.eqb_eq Hbdate%Z.eqb_eq].
  apply list_elem_of_In in Hb. unfold documents in Hb.
  apply list_elem_of_fmap in Hb as ([j b'] & -> & Hj%elem_of_map_to_list).
  cbn [snd] in *.
  assert (Hji : j <> id).
  { intros ->. unfold Appointment_findById in Happt. congruence. }
  eexists _, j, b'. split.
  - rewrite (put_after_lookup newDate db id _ (toISOString t) t minutes
               appointment doctor ws we); try done.
    + by rewrite decide_True.
    + by apply toISOString_nonempty.
    + rewrite (Hnew _ t) by by apply parse_toISOString.
      cbn [mbind option_bind]. by apply TimeClip_valid.
    + by rewrite Hsame.
    + by apply workingWindowWith_extends.
  - split; [done |]. unfold save. cbn [Appointments appointment_id].
    rewrite lookup_insert_eq, lookup_insert_ne by done.
    cbn [doctorId date]. by rewrite Hsame, Hbdoc.
Qed.

Lemma put_bypasses_exact_check_witness :
  let db1 := (post db0 (booking 1 "2024-05-01T09:00:00.000Z" None)).2 in
  let db2 := (post db1 (booking 1 "2024-05-01T09:30:00.000Z" (Some 30))).2 in
  exists a' j b,
    put parse db2 2 (mkPutBody (Some (toISOString 1714554000000)) (Some 30))
    = (OkJson a', save db2 a')
    /\ j <> 2%positive
    /\ Appointments (save db2 a') !! 2%positive = Some a'
    /\ Appointments (save db2 a') !! j = Some b
    /\ doctorId a' = doctorId b
    /\ date a' = 1714554000000
    /\ date b = 1714554000000.
Proof.
  cbv zeta.
  apply (put_bypasses_exact_check parse _
           (booking 1 "2024-05-01T09:00:00.000Z" (Some 30))
           "2024-05-01T09:00:00.000Z" 1714554000000 2
           (mkAppointment 2 1 1714555800000 (Some 30) "checkup" "Mira" "") 30).
  - done.
  - reflexivity.
  - vm_compute. reflexivity.
  - vm_compute. reflexivity.
  - vm_compute. reflexivity.
  - reflexivity.
  - cbn [date]. lia.
  - lia.
Defined.

(** ** Requests one after the other, and interleaved *)

Lemma post_step_preserves db st :
  Doctors (post_step db st).2 = Doctors db
  /\ (forall id x,
        Appointments db !! id = Some x ->
        Appointments (post_step db st).2 !! id = Some x).
Proof.
  destruct st as [body pd | body pd doctor ws we | body pd | body t | r];
    cbn [post_step].
  - destruct (Doctor_findById _ _); [| done].
    by destruct (workingWindow _ _) as [[? ?]|].
  - destruct (mapM _ _); [| done]. by destruct (negb _).
  - destruct (parse pd); [| done]. by destruct (Appointment_findOne _ _ _).
  - cbn [snd]. split; [done |]. intros id x Hx. unfold save. cbn [Appointments].
    rewrite lookup_insert_ne; [done |]. intros <-.
    pose proof (newAppointment_fresh db body t). congruence.
  - done.
Qed.

Lemma system_step_preserves s turn :
  Doctors (database (system_step s turn)) = Doctors (database s)
  /\ (forall id x,
        Appointments (database s) !! id = Some x ->
        Appointments (database (system_step s turn)) !! id = Some x).
Proof.
  destruct turn; unfold system_step.
  - pose proof (post_step_preserves (database s) (first s)) as H.
    by destruct (post_step (database s) (first s)).
  - pose proof (post_step_preserves (database s) (second s)) as H.
    by destruct (post_step (database s) (second s)).
Qed.

Lemma schedule_preserves schedule : forall s,
  Doctors (database (fold_left system_step schedule s)) = Doctors (database s)
  /\ (forall id x,
        Appointments (database s) !! id = Some x ->
        Appointments (database (fold_left system_step schedule s)) !! id
        = Some x).
Proof.
  induction schedule as [|turn schedule IH]; intros s; [done |].
  cbn [fold_left].
  destruct (IH (system_step s turn)) as [IHd IHa].
  destruct (system_step_preserves s turn) as [Hd Ha].
  split; [congruence | auto].
Qed.

(** X15: whatever the order in which two POST requests are resumed at
    their [await]s, the doctors are untouched and no appointment stored
    before is changed or removed. *)
Theorem interleaving_keeps_stored schedule db body1 body2 :
  Doctors (database (run schedule db body1 body2)) = Doctors db
  /\ (forall id x,
        Appointments db !! id = Some x ->
        Appointments (database (run schedule db body1 body2)) !! id = Some x).
Proof.
  apply (schedule_preserves schedule
           (mkSystem db (post_begin body1) (post_begin body2))).
Qed.

Lemma post_begin_not_Created body a : post_begin body <> Finished (Created a).
Proof.
  unfold post_begin.
  destruct (post_date body) as [requested|]; [| done].
  destruct (String.eqb requested ""); [done |].
  by destruct (processDate requested).
Qed.

Lemma post_step_answered db st :
  answered_stored db st ->
  answered_stored (post_step db st).2 (post_step db st).1.
Proof.
  intros Hst a.
  destruct st as [body pd | body pd doctor ws we | body pd | body t | r];
    cbn [post_step].
  - destruct (Doctor_findById _ _); [| done].
    by destruct (workingWindow _ _) as [[? ?]|].
  - destruct (mapM _ _); [| done]. by destruct (negb _).
  - destruct (parse pd); [| done]. by destruct (Appointment_findOne _ _ _).
  - cbn [fst snd]. intros [= <-]. unfold save. cbn [Appointments].
    apply lookup_insert_eq.
  - cbn [fst snd]. apply Hst.
Qed.

Lemma post_step_keeps_answered db st st' :
  answered_stored db st' -> answered_stored (post_step db st).2 st'.
Proof.
  intros Hst a Heq. apply post_step_preserves. by apply Hst.
Qed.

Lemma schedule_answered schedule : forall s,
  answered_stored (database s) (first s) ->
  answered_stored (database s) (second s) ->
  answered_stored (database (fold_left system_step schedule s))
    (first (fold_left system_step schedule s))
  /\ answered_stored (database (fold_left system_step schedule s))
       (second (fold_left system_step schedule s)).
Proof.
  induction schedule as [|turn schedule IH]; intros s H1 H2; [done |].
  cbn [fold_left]. apply IH; destruct turn; unfold system_step.
  - pose proof (post_step_answered _ _ H1) as H.
    by destruct (post_step (database s) (first s)).
  - pose proof (post_step_keeps_answered (database s) (second s) _ H1) as H.
    by destruct (post_step (database s) (second s)).
  - pose proof (post_step_keeps_answered (database s) (first s) _ H2) as H.
    by destruct (post_step (database s) (first s)).
  - pose proof (post_step_answered _ _ H2) as H.
    by destruct (post_step (database s) (second s)).
Qed.

(** X16: whatever the order in which two POST requests are resumed, an
    appointment answered with 201 is in the collection at the end, under
    its own [_id]: no admitted booking is overwritten by the other
    request. *)
Theorem interleaving_keeps_answered schedule db body1 body2 :
  let sys := run schedule db body1 body2 in
  (forall a, first sys = Finished (Created a) ->
             Appointment_findById (database sys) (appointment_id a) = Some a)
  /\ (forall a, second sys = Finished (Created a) ->
                Appointment_findById (database sys) (appointment_id a) = Some a).
Proof.
  apply (schedule_answered schedule
           (mkSystem db (post_begin body1) (post_begin body2)));
    intros a Ha; cbn [first second] in Ha; by apply post_begin_not_Created in Ha.
Qed.

(** ** More on the date processing *)

Lemma regexMatch_Some pat : forall s m,
  regexMatch pat s = Some m ->
  exists pre post,
    s = pre +:+ m +:+ post
    /\ shaped pat m
    /\ (forall pre' m' post',
          s = pre' +:+ m' +:+ post' -> shaped pat m' ->
          (String.length pre <= String.length pre')%nat).
Proof.
  induction s as [|c s IH]; intros m; cbn [regexMatch].
  - destruct (matchHere pat "") as [m0|] eqn:Hm; [| done].
    intros [= <-]. apply matchHere_Some in Hm as (post & Hs & Hsh).
    exists "", post. split; [done |]. split; [done |]. cbn. lia.
  - destruct (matchHere pat (String c s)) as [m0|] eqn:Hm.
    + intros [= <-]. apply matchHere_Some in Hm as (post & Hs & Hsh).
      exists "", post. split; [done |]. split; [done |]. cbn. lia.
    + intros (pre & post & -> & Hsh & Hleft)%IH.
      exists (String c pre), post. split; [done |]. split; [done |].
      intros pre' m' post' Hs Hsh'. destruct pre' as [|c' pre'].
      * cbn [String.append] in Hs.
        assert (matchHere pat (String c (pre +:+ m +:+ post)) = Some m')
          by (apply matchHere_Some; eauto).
        congruence.
      * cbn [String.append] in Hs. injection Hs as -> Hs.
        specialize (Hleft pre' m' post' Hs Hsh'). cbn [String.length]. lia.
Qed.

Lemma length_list_ascii_of_string s :
  List.length (list_ascii_of_string s) = String.length s.
Proof. induction s as [|c s IH]; cbn; [done | by rewrite IH]. Qed.

Lemma shaped_length pat m : shaped pat m -> String.length m = List.length pat.
Proof.
  intros H%Forall2_length. by rewrite <- length_list_ascii_of_string.
Qed.

Lemma append_empty_r s : s +:+ "" = s.
Proof.
  induction s as [|c s IH]; [done |].
  change (String c s +:+ "") with (String c (s +:+ "")). by rewrite IH.
Qed.

Lemma sanitizeDate_shaped m : shaped isoPattern m -> sanitizeDate m = Some m.
Proof.
  intros Hsh. unfold sanitizeDate. apply regexMatch_here, matchHere_Some.
  exists "". by rewrite append_empty_r.
Qed.

(** X17: what [sanitizeDate] returns is a piece of its input: 24
    characters of the form YYYY-MM-DDTHH:MM:SS.mmmZ, starting at the
    leftmost position where such a piece starts; and sanitizing it again
    returns it unchanged. *)
Theorem sanitizeDate_result incomingDate m :
  sanitizeDate incomingDate = Some m ->
  String.length m = 24%nat
  /\ shaped isoPattern m
  /\ (exists pre post,
        incomingDate = pre +:+ m +:+ post
        /\ forall pre' m' post',
             incomingDate = pre' +:+ m' +:+ post' -> shaped isoPattern m' ->
             (String.length pre <= String.length pre')%nat)
  /\ sanitizeDate m = Some m.
Proof.
  intros (pre & post & Hs & Hsh & Hleft)%regexMatch_Some.
  split; [by apply shaped_length in Hsh |]. split; [done |].
  split; [by exists pre, post |]. by apply sanitizeDate_shaped.
Qed.

Lemma sanitizeDate_result_witness :
  String.length "2024-05-01T09:00:00.000Z" = 24%nat
  /\ sanitizeDate "2024-05-01T09:00:00.000Z" = Some "2024-05-01T09:00:00.000Z".
Proof.
  destruct (sanitizeDate_result "at 12024-05-01T09:00:00.000Z2024!"
              "2024-05-01T09:00:00.000Z") as (Hlen & _ & _ & Hagain).
  - vm_compute. reflexivity.
  - by split.
Defined.

(** ** The day of a slot *)

Lemma parse_pDay s :
  parse s
  = '(day, rest) ← pDay s;
    match rest with
    | EmptyString => TimeClip (day * msPerDay)
    | _ => t ← pTime rest; TimeClip (day * msPerDay + t)
    end.
Proof.
  unfold parse, pDay.
  destruct (pYear s) as [[y s1]|]; [| done]. cbn [mbind option_bind].
  destruct (match pChar "-" s1 with Some _ => _ | None => _ end)
    as [[[m d] s2]|]; [| done].
  cbn [mbind option_bind].
  by destruct ((1 <=? m) && (m <=? 12) && (1 <=? d) && (d <=? 31)).
Qed.

Lemma pDigits_app k X : forall acc s v r,
  pDigits k acc s = Some (v, r) ->
  pDigits k acc (s +:+ X) = Some (v, r +:+ X).
Proof.
  induction k as [|k IH]; intros acc s v r; cbn [pDigits].
  - by intros [= <- <-].
  - destruct s as [|c s]; [done |].
    change (String c s +:+ X) with (String c (s +:+ X)). cbn [pDigits].
    destruct (digitVal c); [apply IH | done].
Qed.

Lemma pDigits_app_None k X : forall acc s,
  pDigits k acc s = None ->
  pDigits k acc (s +:+ String "T" X) = None.
Proof.
  induction k as [|k IH]; intros acc s; cbn [pDigits]; [done |].
  destruct s as [|c s]; [done |].
  change (String c s +:+ String "T" X) with (String c (s +:+ String "T" X)).
  cbn [pDigits]. destruct (digitVal c); [apply IH | done].
Qed.

Lemma pChar_app c s r X :
  pChar c s = Some r -> pChar c (s +:+ X) = Some (r +:+ X).
Proof.
  destruct s as [|c' s]; [done |].
  change (String c' s +:+ X) with (String c' (s +:+ X)). cbn [pChar].
  destruct (Ascii.eqb c c'); [by intros [= <-] | done].
Qed.

Lemma pChar_app_None c s X :
  Ascii.eqb c "T" = false ->
  pChar c s = None -> pChar c (s +:+ String "T" X) = None.
Proof.
  intros Hc. destruct s as [|c' s].
  - intros _. change ("" +:+ String "T" X) with (String "T" X).
    cbn [pChar]. by rewrite Hc.
  - change (String c' s +:+ String "T" X)
      with (String c' (s +:+ String "T" X)). cbn [pChar].
    by destruct (Ascii.eqb c c').
Qed.

Lemma pYear_app s y r X :
  pYear s = Some (y, r) ->
  pYear (s +:+ String "T" X) = Some (y, r +:+ String "T" X).
Proof.
  unfold pYear.
  destruct (pDigits 4 0 s) as [[y' r']|] eqn:H4.
  - intros [= <- <-]. by rewrite (pDigits_app _ _ _ _ _ _ H4).
  - rewrite (pDigits_app_None _ _ _ _ H4).
    destruct s as [|c s]; [done |].
    change (String c s +:+ String "T" X) with (String c (s +:+ String "T" X)).
    cbv beta iota.
    destruct (Ascii.eqb c "+").
    + apply pDigits_app.
    + destruct (Ascii.eqb c "-"); [| done].
      destruct (pDigits 6 0 s) as [[y6 r6]|] eqn:H6; [| done].
      rewrite (pDigits_app _ _ _ _ _ _ H6). cbn [mbind option_bind].
      destruct (y6 =? 0); [done | by intros [= <- <-]].
Qed.

Lemma pDay_app s day r X :
  pDay s = Some (day, r) ->
  pDay (s +:+ String "T" X) = Some (day, r +:+ String "T" X).
Proof.
  unfold pDay.
  destruct (pYear s) as [[y s1]|] eqn:Hy; [| done].
  rewrite (pYear_app _ _ _ X Hy). cbn [mbind option_bind].
  destruct (pChar "-" s1) as [s2|] eqn:Hc1.
  - rewrite (pChar_app _ _ _ _ Hc1).
    destruct (pDigits 2 0 s2) as [[m s3]|] eqn:Hm; [| done].
    rewrite (pDigits_app _ _ _ _ _ _ Hm). cbn [mbind option_bind].
    destruct (pChar "-" s3) as [s4|] eqn:Hc2.
    + rewrite (pChar_app _ _ _ _ Hc2).
      destruct (pDigits 2 0 s4) as [[d s5]|] eqn:Hd; [| done].
      rewrite (pDigits_app _ _ _ _ _ _ Hd). cbn [mbind option_bind].
      destruct (_ && _); [by intros [= <- <-] | done].
    + rewrite (pChar_app_None "-"%char _ _ eq_refl Hc2). cbn [mbind option_bind].
      destruct (_ && _); [by intros [= <- <-] | done].
  - rewrite (pChar_app_None "-"%char _ _ eq_refl Hc1). cbn [mbind option_bind].
    destruct (_ && _); [by intros [= <- <-] | done].
Qed.

Lemma pTime_app_None r tod X :
  pTime r = Some tod -> pTime (r +:+ String "T" X) = None.
Proof.
  unfold pTime.
  destruct (pChar "T" r) as [s1|] eqn:H1; [| done].
  rewrite (pChar_app _ _ _ _ H1). cbn [mbind option_bind].
  destruct (pDigits 2 0 s1) as [[h s2]|] eqn:H2; [| done].
  rewrite (pDigits_app _ _ _ _ _ _ H2). cbn [mbind option_bind].
  destruct (pChar ":" s2) as [s3|] eqn:H3; [| done].
  rewrite (pChar_app _ _ _ _ H3). cbn [mbind option_bind].
  destruct (pDigits 2 0 s3) as [[mi s4]|] eqn:H4; [| done].
  rewrite (pDigits_app _ _ _ _ _ _ H4). cbn [mbind option_bind].
  assert (Hend : forall sec ms s,
    (s0 ← pChar "Z" s;
     if negb (String.eqb s0 "") then None
     else if (h <=? 23) && (mi <=? 59) && (sec <=? 59)
             || (h =? 24) && (mi =? 0) && (sec =? 0) && (ms =? 0)
     then Some (h * msPerHour + mi * msPerMinute + sec * 1000 + ms)
     else None) = Some tod ->
    (s0 ← pChar "Z" (s +:+ String "T" X);
     if negb (String.eqb s0 "") then None
     else if (h <=? 23) && (mi <=? 59) && (sec <=? 59)
             || (h =? 24) && (mi =? 0) && (sec =? 0) && (ms =? 0)
     then Some (h * msPerHour + mi * msPerMinute + sec * 1000 + ms)
     else None) = None).
  { intros sec ms s.
    destruct (pChar "Z" s) as [s0|] eqn:Hz; [| done].
    rewrite (pChar_app _ _ _ _ Hz). cbn [mbind option_bind].
    destruct s0; [done |]. by cbn. }
  destruct (pChar ":" s4) as [s5|] eqn:H5.
  - rewrite (pChar_app _ _ _ _ H5).
    destruct (pDigits 2 0 s5) as [[sec s6]|] eqn:H6; [| done].
    rewrite (pDigits_app _ _ _ _ _ _ H6). cbn [mbind option_bind].
    destruct (pChar "." s6) as [s7|] eqn:H7.
    + rewrite (pChar_app _ _ _ _ H7).
      destruct (pDigits 3 0 s7) as [[ms s8]|] eqn:H8; [| done].
      rewrite (pDigits_app _ _ _ _ _ _ H8). cbn [mbind option_bind].
      apply Hend.
    + rewrite (pChar_app_None "."%char _ _ eq_refl H7). cbn [mbind option_bind].
      apply Hend.
  - rewrite (pChar_app_None ":"%char _ _ eq_refl H5). cbn [mbind option_bind].
    apply Hend.
Qed.

Lemma pDigits_bound k : forall acc s v r,
  pDigits k acc s = Some (v, r) ->
  acc * 10 ^ Z.of_nat k <= v < (acc + 1) * 10 ^ Z.of_nat k.
Proof.
  induction k as [|k IH]; intros acc s v r; cbn [pDigits].
  - intros [= <- <-]. cbn. lia.
  - destruct s as [|c s]; [done |].
    destruct (digitVal c) as [d|] eqn:Hd; [| done].
    intros H%IH. rewrite Nat2Z.inj_succ, Z.pow_succ_r by lia.
    assert (0 <= d <= 9).
    { unfold digitVal in Hd.
      destruct (Z.leb_spec 48 (Z.of_N (N_of_ascii c))),
        (Z.leb_spec (Z.of_N (N_of_ascii c)) 57); cbn [andb] in Hd; try done.
      injection Hd as <-. lia. }
    assert (0 < 10 ^ Z.of_nat k) by (apply Z.pow_pos_nonneg; lia).
    nia.
Qed.

Lemma pTime_range s tod : pTime s = Some tod -> 0 <= tod <= msPerDay.
Proof.
  unfold pTime.
  destruct (pChar "T" s) as [s1|]; [| done]. cbn [mbind option_bind].
  destruct (pDigits 2 0 s1) as [[h s2]|] eqn:Hh; [| done].
  cbn [mbind option_bind].
  destruct (pChar ":" s2) as [s3|]; [| done]. cbn [mbind option_bind].
  destruct (pDigits 2 0 s3) as [[mi s4]|] eqn:Hmi; [| done].
  cbn [mbind option_bind].
  apply pDigits_bound in Hh, Hmi. cbn in Hh, Hmi.
  assert (Hend : forall sec ms s,
    0 <= sec -> 0 <= ms <= 999 ->
    (s0 ← pChar "Z" s;
     if negb (String.eqb s0 "") then None
     else if (h <=? 23) && (mi <=? 59) && (sec <=? 59)
             || (h =? 24) && (mi =? 0) && (sec =? 0) && (ms =? 0)
     then Some (h * msPerHour + mi * msPerMinute + sec * 1000 + ms)
     else None) = Some tod ->
    0 <= tod <= msPerDay).
  { intros sec ms s' Hsec Hms.
    destruct (pChar "Z" s') as [s0|]; [| done]. cbn [mbind option_bind].
    destruct (negb _); [done |].
    destruct (Z.leb_spec h 23), (Z.leb_spec mi 59), (Z.leb_spec sec 59),
      (Z.eqb_spec h 24), (Z.eqb_spec mi 0), (Z.eqb_spec sec 0),
      (Z.eqb_spec ms 0); cbn [andb orb]; try done;
      intros [= <-]; unfold msPerHour, msPerMinute, msPerDay; lia. }
  destruct (pChar ":" s4) as [s5|].
  - destruct (pDigits 2 0 s5) as [[sec s6]|] eqn:Hsec; [| done].
    cbn [mbind option_bind]. apply pDigits_bound in Hsec. cbn in Hsec.
    destruct (pChar "." s6) as [s7|].
    + destruct (pDigits 3 0 s7) as [[ms s8]|] eqn:Hms; [| done].
      cbn [mbind option_bind]. apply pDigits_bound in Hms. cbn in Hms.
      apply Hend; lia.
    + cbn [mbind option_bind]. apply Hend; lia.
  - cbn [mbind option_bind]. apply Hend; lia.
Qed.

(** A date that passes the first test of [calculateAvailableSlots] and
    gives a valid timestamp once a time of day is appended is a date
    without time: the timestamp is that day's midnight plus the time of
    day. *)
Lemma parse_date_only D X t0 ws :
  parse D = Some t0 ->
  parse (D +:+ String "T" X) = Some ws ->
  exists day tod,
    pDay D = Some (day, "")
    /\ t0 = day * msPerDay
    /\ pTime (String "T" X) = Some tod
    /\ ws = day * msPerDay + tod.
Proof.
  rewrite !parse_pDay.
  destruct (pDay D) as [[day r]|] eqn:Hday; [| done].
  rewrite (pDay_app _ _ _ X Hday). cbn [mbind option_bind].
  destruct r as [|c r].
  - change ("" +:+ String "T" X) with (String "T" X).
    intros [-> _]%TimeClip_Some.
    destruct (pTime (String "T" X)) as [tod|]; [| done].
    cbn [mbind option_bind]. intros [-> _]%TimeClip_Some.
    by exists day, tod.
  - destruct (pTime (String c r)) as [tod0|] eqn:Htod0; [| done].
    intros _.
    change (String c r +:+ String "T" X)
      with (String c (r +:+ String "T" X)).
    change (String c (r +:+ String "T" X))
      with (String c r +:+ String "T" X).
    rewrite (pTime_app_None _ _ X Htod0).
    change (String c r +:+ String "T" X)
      with (String c (r +:+ String "T" X)).
    cbv beta iota. by cbn [mbind option_bind].
Qed.

Lemma digitChar_not_T n : Ascii.eqb (digitChar n) "T" = false.
Proof.
  pose proof (Z.mod_pos_bound n 10 ltac:(lia)) as Hb.
  unfold digitChar.
  assert (Hc : n mod 10 = 0 \/ n mod 10 = 1 \/ n mod 10 = 2 \/ n mod 10 = 3
               \/ n mod 10 = 4 \/ n mod 10 = 5 \/ n mod 10 = 6 \/ n mod 10 = 7
               \/ n mod 10 = 8 \/ n mod 10 = 9) by lia.
  destruct Hc as [-> | [-> | [-> | [-> | [-> | [-> | [-> | [-> | [-> | ->]]]]]]]]];
    reflexivity.
Qed.

Lemma splitT0_padDigits k : forall n tail,
  splitT0 (padDigits k n tail) = padDigits k n (splitT0 tail).
Proof.
  induction k as [|k IH]; intros n tail; [done |].
  cbn [padDigits]. rewrite IH. cbn [splitT0]. by rewrite digitChar_not_T.
Qed.

Lemma length_padDigits k : forall n tail,
  String.length (padDigits k n tail) = (k + String.length tail)%nat.
Proof.
  induction k as [|k IH]; intros n tail; [done |].
  cbn [padDigits]. rewrite IH. cbn [String.length]. lia.
Qed.

(** The date part of an ISO string denotes the day of its instant. *)
Lemma toISOString_day t :
  validTime t ->
  splitT0 (toISOString t) <> ""
  /\ pDay (splitT0 (toISOString t)) = Some (t / msPerDay, "")
  /\ forall X,
       pDay (splitT0 (toISOString t) +:+ String "T" X)
       = Some (t / msPerDay, String "T" X).
Proof.
  intros Ht. rewrite toISOString_unfold. cbv zeta.
  destruct (civilFromDay (t / msPerDay)) as [[y m] d] eqn:Hc.
  apply civilFromDay_spec in Hc as (Hy & Hm & Hd & Hday).
  assert (Hdayb : -100000000 <= t / msPerDay <= 100000000).
  { unfold validTime, maxTime, msPerDay in *. Z.div_mod_to_equations. lia. }
  pose proof (YearFromDay_bound _ Hdayb) as Hyb. rewrite <- Hy in Hyb.
  set (rest := String ":" _).
  assert (Hsplit :
    splitT0 (if (0 <=? y) && (y <=? 9999)
             then padDigits 4 y (String "-" (padDigits 2 m (String "-"
                    (padDigits 2 d (String "T"
                       (padDigits 2 (t mod msPerDay / msPerHour) rest))))))
             else String (if y <? 0 then "-"%char else "+"%char)
                    (padDigits 6 (Z.abs y) (String "-" (padDigits 2 m
                       (String "-" (padDigits 2 d (String "T"
                          (padDigits 2 (t mod msPerDay / msPerHour) rest))))))))
    = (if (0 <=? y) && (y <=? 9999)
       then padDigits 4 y (String "-" (padDigits 2 m (String "-"
              (padDigits 2 d ""))))
       else String (if y <? 0 then "-"%char else "+"%char)
              (padDigits 6 (Z.abs y) (String "-" (padDigits 2 m
                 (String "-" (padDigits 2 d ""))))))).
  { destruct ((0 <=? y) && (y <=? 9999)).
    - rewrite splitT0_padDigits. cbn [splitT0 Ascii.eqb Bool.eqb].
      rewrite splitT0_padDigits. cbn [splitT0 Ascii.eqb Bool.eqb].
      rewrite splitT0_padDigits. by cbn [splitT0 Ascii.eqb Bool.eqb].
    - destruct (y <? 0); cbn [splitT0 Ascii.eqb Bool.eqb];
        rewrite splitT0_padDigits; cbn [splitT0 Ascii.eqb Bool.eqb];
        rewrite splitT0_padDigits; cbn [splitT0 Ascii.eqb Bool.eqb];
        rewrite splitT0_padDigits; by cbn [splitT0 Ascii.eqb Bool.eqb]. }
  rewrite Hsplit. clear Hsplit rest.
  assert (Hrender : forall tail,
    pDay (if (0 <=? y) && (y <=? 9999)
          then padDigits 4 y (String "-" (padDigits 2 m (String "-"
                 (padDigits 2 d tail))))
          else String (if y <? 0 then "-"%char else "+"%char)
                 (padDigits 6 (Z.abs y) (String "-" (padDigits 2 m
                    (String "-" (padDigits 2 d tail))))))
    = Some (t / msPerDay, tail)).
  { intros tail. unfold pDay.
    rewrite pYear_render by lia. cbn [mbind option_bind].
    rewrite pDate_render by lia. cbn [mbind option_bind].
    destruct (Z.leb_spec 1 m), (Z.leb_spec m 12), (Z.leb_spec 1 d),
      (Z.leb_spec d 31); try lia.
    cbn [andb]. by rewrite Hday. }
  split.
  - intros Hempty. specialize (Hrender ""). rewrite Hempty in Hrender.
    assert (Hnone : pDay "" = None) by reflexivity. congruence.
  - split; [apply Hrender |]. intros X.
    rewrite <- (Hrender (String "T" X)). f_equal.
    destruct ((0 <=? y) && (y <=? 9999)).
    + by rewrite !padDigits_app.
    + change (String ?c ?s +:+ ?x) with (String c (s +:+ x)).
      by rewrite !padDigits_app.
Qed.

Lemma workingWindow_day doctor D ws we :
  workingWindow doctor D = Ok (ws, we) ->
  exists day tods tode,
    parse D = Some (day * msPerDay)
    /\ pTime (String "T" (workingHours_start doctor +:+ ":00Z")) = Some tods
    /\ pTime (String "T" (workingHours_end doctor +:+ ":00Z")) = Some tode
    /\ ws = day * msPerDay + tods
    /\ we = day * msPerDay + tode.
Proof.
  unfold workingWindow.
  destruct (String.eqb D ""); [done |].
  destruct (parse D) as [t0|] eqn:Ht0; [| done]. cbn [isNaN orb].
  change (D +:+ "T" +:+ workingHours_start doctor +:+ ":00Z")
    with (D +:+ String "T" (workingHours_start doctor +:+ ":00Z")).
  change (D +:+ "T" +:+ workingHours_end doctor +:+ ":00Z")
    with (D +:+ String "T" (workingHours_end doctor +:+ ":00Z")).
  destruct (parse (D +:+ String "T" (workingHours_start doctor +:+ ":00Z")))
    as [ws'|] eqn:Hs; [| done].
  destruct (parse (D +:+ String "T" (workingHours_end doctor +:+ ":00Z")))
    as [we'|] eqn:He; [| done].
  intros [= <- <-].
  destruct (parse_date_only _ _ _ _ Ht0 Hs) as (day & tods & Hday & -> & Hts & ->).
  destruct (parse_date_only _ _ _ _ Ht0 He) as (day' & tode & Hday' & Heq & Hte & ->).
  assert (day' = day) as -> by congruence.
  by exists day, tods, tode.
Qed.

(** The working hours POST computes from the date part of a slot are those
    of the day the slot was listed for. *)
Lemma workingWindow_of_slot doctor D ws we t :
  workingWindow doctor D = Ok (ws, we) ->
  ws <= t < we ->
  workingWindow doctor (splitT0 (toISOString t)) = Ok (ws, we)
  /\ parse (splitT0 (toISOString t)) = parse D
  /\ exists midnight,
       parse D = Some midnight /\ midnight <= t < midnight + msPerDay.
Proof.
  intros Hw Ht.
  destruct (workingWindow_valid _ _ _ _ Hw) as [Hvs Hve].
  destruct (workingWindow_day _ _ _ _ Hw)
    as (day & tods & tode & HD & Hts & Hte & -> & ->).
  pose proof (pTime_range _ _ Hts) as Hrs.
  pose proof (pTime_range _ _ Hte) as Hre.
  assert (Hvt : validTime t) by (unfold validTime in *; lia).
  assert (Hdiv : t / msPerDay = day).
  { unfold msPerDay in *. Z.div_mod_to_equations. lia. }
  destruct (toISOString_day t Hvt) as (Hne & Hday & Happ).
  rewrite Hdiv in Hday, Happ.
  assert (Hmid : parse (splitT0 (toISOString t)) = Some (day * msPerDay)).
  { rewrite parse_pDay, Hday. cbn [mbind option_bind].
    apply TimeClip_valid.
    unfold validTime, maxTime, msPerDay in *. Z.div_mod_to_equations. lia. }
  split; [| split; [congruence | exists (day * msPerDay); split; [done | lia]]].
  unfold workingWindow.
  apply String.eqb_neq in Hne. rewrite Hne, Hmid. cbn [isNaN orb].
  change (splitT0 (toISOString t) +:+ "T" +:+ workingHours_start doctor +:+ ":00Z")
    with (splitT0 (toISOString t)
          +:+ String "T" (workingHours_start doctor +:+ ":00Z")).
  change (splitT0 (toISOString t) +:+ "T" +:+ workingHours_end doctor +:+ ":00Z")
    with (splitT0 (toISOString t)
          +:+ String "T" (workingHours_end doctor +:+ ":00Z")).
  rewrite !parse_pDay, !Happ. cbn [mbind option_bind].
  rewrite Hts, Hte. cbn [mbind option_bind].
  by rewrite !TimeClip_valid.
Qed.

Lemma filter_length_bound {A} (f : A -> bool) (l : list A) :
  (List.length (List.filter f l) <= List.length l)%nat.
Proof. pose proof (filter_split_length f l). lia. Qed.



Lemma matchHere_padDigits k : forall n pat rest,
  matchHere (repeat Digit k ++ pat) (padDigits k n rest)
  = padDigits k n <$> matchHere pat rest.
Proof.
  induction k as [|k IH]; intros n pat rest.
  - cbn [repeat app padDigits]. by destruct (matchHere pat rest).
  - change (repeat Digit (S k) ++ pat) with ((Digit :: repeat Digit k) ++ pat).
    rewrite repeat_cons, <- app_assoc. cbn [padDigits app].
    rewrite IH. cbn [matchHere matchElem].
    unfold isDigit. rewrite digitVal_digitChar.
    by destruct (matchHere pat rest).
Qed.

Lemma sanitizeDate_toISOString t :
  validTime t ->
  String.length (toISOString t) = 24%nat ->
  sanitizeDate (toISOString t) = Some (toISOString t).
Proof.
  intros Hvt. rewrite toISOString_unfold. cbv zeta.
  destruct (civilFromDay (t / msPerDay)) as [[y m] d].
  destruct ((0 <=? y) && (y <=? 9999)).
  - intros _. unfold sanitizeDate. apply regexMatch_here.
    change isoPattern
      with (repeat Digit 4 ++ Lit "-" :: repeat Digit 2 ++ Lit "-"
            :: repeat Digit 2 ++ Lit "T" :: repeat Digit 2 ++ Lit ":"
            :: repeat Digit 2 ++ Lit ":" :: repeat Digit 2 ++ Lit "."
            :: repeat Digit 3 ++ [Lit "Z"]).
    repeat (rewrite matchHere_padDigits;
            cbn [matchHere matchElem Ascii.eqb Bool.eqb mbind option_bind
                 fmap option_fmap option_map]).
    reflexivity.
  - cbn [String.length]. rewrite !length_padDigits.
    repeat (cbn [String.length]; rewrite ?length_padDigits). lia.
Qed.

(** X19: what POST makes of a date is the ISO string of a valid instant,
    the one the extracted timestamp denotes; when it has the plain 24
    characters (a year from 0000 to 9999), processing it again returns it
    unchanged. *)
Theorem processDate_canonical requested processedDate :
  processDate requested = Ok processedDate ->
  exists t,
    normalizedInstant requested = Some t
    /\ processedDate = toISOString t
    /\ parse processedDate = Some t
    /\ (String.length processedDate = 24%nat ->
        processDate processedDate = Ok processedDate).
Proof.
  unfold processDate, normalizedInstant.
  destruct (sanitizeDate requested) as [m|]; [| done].
  cbn [mbind option_bind].
  destruct (parse m) as [t|] eqn:Hparse; [| done].
  intros [= <-]. pose proof (parse_valid _ _ Hparse) as Hvt.
  exists t. split; [done |]. split; [done |].
  split; [by apply parse_toISOString |].
  intros Hlen. rewrite (sanitizeDate_toISOString t Hvt Hlen).
  by rewrite parse_toISOString.
Qed.

Lemma processDate_canonical_witness :
  processDate "2024-05-01T09:00:00.000Z" = Ok "2024-05-01T09:00:00.000Z".
Proof.
  destruct (processDate_canonical
              "x2024-05-01T09:00:00.000Z2024-05-01T09:00:00.000Z"
              "2024-05-01T09:00:00.000Z") as (t & _ & _ & _ & Hagain).
  - vm_compute. reflexivity.
  - apply Hagain. reflexivity.
Defined.

(** The last instant a four-digit timestamp can denote is not written with
    four digits, and processing it again yields another instant. *)
Example processDate_year_10000 :
  processDate "9999-12-31T24:00:00.000Z" = Ok "+010000-01-01T00:00:00.000Z"
  /\ processDate "+010000-01-01T00:00:00.000Z" = Ok "0000-01-01T00:00:00.000Z".
Proof. vm_compute. by split. Qed.

(** [findOne({ doctorId, date })] finds nothing exactly when no stored
    appointment of the doctor sits at the instant. *)
Lemma Appointment_findOne_None db doc t :
  Appointment_findOne db doc t = None
  <-> forall j b, Appointments db !! j = Some b ->
                  doctorId b = doc -> date b <> t.
Proof.
  unfold Appointment_findOne. split.
  - intros Hnone j b Hb Hdoc Hdate.
    assert (Hin : In b (documents (Appointments db))).
    { apply list_elem_of_In. unfold documents.
      apply list_elem_of_fmap. exists (j, b).
      split; [done | by apply elem_of_map_to_list]. }
    pose proof (find_none _ _ Hnone b Hin) as Hno. cbn beta in Hno.
    apply andb_false_iff in Hno as [Hno%Pos.eqb_neq | Hno%Z.eqb_neq]; done.
  - intros Hall.
    destruct (List.find _ _) as [b|] eqn:Hone; [| done].
    apply find_some in Hone as [Hb Hmatch].
    apply andb_true_iff in Hmatch as [Hbdoc%Pos.eqb_eq Hbdate%Z.eqb_eq].
    apply list_elem_of_In in Hb. unfold documents in Hb.
    apply list_elem_of_fmap in Hb as ([j b'] & -> & Hj%elem_of_map_to_list).
    cbn [snd] in *. by destruct (Hall j b' Hj Hbdoc).
Qed.



(** ** Two different requests *)

Lemma post_Created_steps db body a db' :
  post db body = (Created a, db') ->
  exists processedDate doctor ws we t,
    post_begin body = AtDoctorFind body processedDate
    /\ post_step db (AtDoctorFind body processedDate)
       = (AtAppointmentFind body processedDate doctor ws we, db)
    /\ post_step db (AtAppointmentFind body processedDate doctor ws we)
       = (AtFindOne body processedDate, db)
    /\ post_step db (AtFindOne body processedDate) = (AtSave body t, db)
    /\ a = newAppointment db body t
    /\ db' = save db a.
Proof.
  intros Hpost. unfold post, calculateAvailableSlots in Hpost.
  destruct (post_date body) as [requested|] eqn:Hdate; [| done].
  destruct (String.eqb requested "") eqn:Hne; [done |].
  destruct (processDate requested) as [processedDate|] eqn:Hproc; [| done].
  destruct (Doctor_findById db (post_doctorId body)) as [doctor|] eqn:Hdoc;
    [| done].
  destruct (workingWindow doctor (splitT0 processedDate)) as [[ws we]|] eqn:Hw;
    [| done].
  destruct (mapM normalizeSlot _) as [normalizedSlots|] eqn:Hmap; [| done].
  destruct (negb (includes normalizedSlots processedDate)) eqn:Hinc; [done |].
  destruct (parse processedDate) as [instant|] eqn:Hparse; [| done].
  destruct (Appointment_findOne db (post_doctorId body) instant) eqn:Hone;
    [done |].
  injection Hpost as <- <-.
  exists processedDate, doctor, ws, we, instant.
  split; [unfold post_begin; by rewrite Hdate, Hne, Hproc |].
  split; [cbn [post_step]; by rewrite Hdoc, Hw |].
  split; [cbn [post_step]; by rewrite Hmap, Hinc |].
  split; [cbn [post_step]; by rewrite Hparse, Hone |].
  done.
Qed.

(** X13: resumed alternately, two POST requests are each judged against
    the database as it was before either wrote: whenever each of them
    would be admitted alone, both are admitted, whether or not their
    intervals overlap, as two distinct documents carrying what each
    request asked for. *)
Theorem alternating_requests_both_commit db body1 body2 a1 a2 db1 db2 :
  post db body1 = (Created a1, db1) ->
  post db body2 = (Created a2, db2) ->
  exists a2',
    run alternating db body1 body2
    = mkSystem (save db1 a2') (Finished (Created a1)) (Finished (Created a2'))
    /\ appointment_id a2' <> appointment_id a1
    /\ doctorId a2' = doctorId a2
    /\ date a2' = date a2
    /\ duration a2' = duration a2
    /\ Appointment_findById (save db1 a2') (appointment_id a1) = Some a1
    /\ Appointment_findById (save db1 a2') (appointment_id a2') = Some a2'.
Proof.
  intros (pd1 & doc1 & ws1 & we1 & t1 & H10 & H11 & H12 & H13 & -> & ->)
           %post_Created_steps
         (pd2 & doc2 & ws2 & we2 & t2 & H20 & H21 & H22 & H23 & -> & _)
           %post_Created_steps.
  set (a1 := newAppointment db body1 t1).
  exists (newAppointment (save db a1) body2 t2).
  split.
  { unfold run, alternating. rewrite H10, H20. cbn [fold_left].
    rewrite (system_step_First _ _ _ _ _ H11), (system_step_Second _ _ _ _ _ H21).
    rewrite (system_step_First _ _ _ _ _ H12), (system_step_Second _ _ _ _ _ H22).
    rewrite (system_step_First _ _ _ _ _ H13), (system_step_Second _ _ _ _ _ H23).
    reflexivity. }
  assert (Hfresh : appointment_id (newAppointment (save db a1) body2 t2)
                   <> appointment_id a1).
  { intros Heq.
    pose proof (newAppointment_fresh (save db a1) body2 t2) as Hnone.
    rewrite Heq in Hnone. unfold save in Hnone. cbn [Appointments] in Hnone.
    by rewrite lookup_insert_eq in Hnone. }
  split; [done |]. split; [done |]. split; [done |]. split; [done |].
  unfold Appointment_findById, save. cbn [Appointments].
  split.
  - rewrite lookup_insert_ne by done. apply lookup_insert_eq.
  - apply lookup_insert_eq.
Qed.

Lemma alternating_requests_both_commit_witness :
  let body1 := booking 2 "2024-05-01T09:00:00.000Z" (Some 60) in
  let body2 := booking 2 "2024-05-01T09:30:00.000Z" (Some 30) in
  let a1 := mkAppointment 1 2 1714554000000 (Some 60) "checkup" "Mira" "" in
  exists a2',
    run alternating db0 body1 body2
    = mkSystem (save (save db0 a1) a2') (Finished (Created a1))
        (Finished (Created a2'))
    /\ appointment_id a2' <> appointment_id a1
    /\ doctorId a2' = 2%positive
    /\ date a2' = 1714555800000
    /\ duration a2' = Some 30
    /\ Appointment_findById (save (save db0 a1) a2') (appointment_id a1)
       = Some a1
    /\ Appointment_findById (save (save db0 a1) a2') (appointment_id a2')
       = Some a2'.
Proof.
  cbv zeta.
  apply (alternating_requests_both_commit db0
           (booking 2 "2024-05-01T09:00:00.000Z" (Some 60))
           (booking 2 "2024-05-01T09:30:00.000Z" (Some 30))
           _ (mkAppointment 1 2 1714555800000 (Some 30) "checkup" "Mira" "")
           _ (save db0 (mkAppointment 1 2 1714555800000 (Some 30)
                          "checkup" "Mira" ""))).
  - vm_compute. reflexivity.
  - vm_compute. reflexivity.
Defined.

Lemma normalizedInstant_nonempty requested t :
  normalizedInstant requested = Some t -> requested <> "".
Proof. by intros H ->. Qed.

(** X14: served one after the other, two requests for the same doctor and
    the same instant are never both admitted, whatever else they carry
    (duration, patient, spelling of the date): after the first is admitted
    the second is refused, at the slot validation or at the exact-instant
    check. *)
Theorem sequential_same_instant_refused db body1 body2 a db' requested2 :
  post db body1 = (Created a, db') ->
  post_doctorId body2 = post_doctorId body1 ->
  post_date body2 = Some requested2 ->
  normalizedInstant requested2 = Some (date a) ->
  post db' body2 = (BadRequest SlotUnavailable, db')
  \/ post db' body2 = (BadRequest SlotAlreadyBooked, db').
Proof.
  intros (requested & t & doctor & ws & we & _ & _ & _ & Hdoc & Hw & _ & _
          & -> & ->)%post_Created_inv Hsame Hdate2 Hnorm2.
  change (date (newAppointment db body1 t)) with t in Hnorm2.
  pose proof (normalizedInstant_nonempty _ _ Hnorm2) as Hne2.
  rewrite (post_after_lookup _ body2 requested2 t doctor ws we);
    [| done | done | done | by rewrite Hsame | done].
  destruct (decide _); [| by left].
  destruct (Appointment_findOne_saved db (newAppointment db body1 t)) as [x Hx].
  cbn [newAppointment doctorId date] in Hx. rewrite Hsame, Hx. by right.
Qed.

Lemma sequential_same_instant_refused_witness :
  let body1 := booking 1 "2024-05-01T09:00:00.000Z" None in
  let body2 := mkPostBody 1 (Some "retry 2024-05-01T09:00:00.000Z") (Some 45)
                 "scan" "Noor" "second" in
  post (post db0 body1).2 body2
  = (BadRequest SlotUnavailable, (post db0 body1).2)
  \/ post (post db0 body1).2 body2
     = (BadRequest SlotAlreadyBooked, (post db0 body1).2).
Proof.
  cbv zeta.
  apply (sequential_same_instant_refused db0
           (booking 1 "2024-05-01T09:00:00.000Z" None) _
           (mkAppointment 1 1 1714554000000 None "checkup" "Mira" "") _
           "retry 2024-05-01T09:00:00.000Z").
  - vm_compute. reflexivity.
  - reflexivity.
  - reflexivity.
  - vm_compute. reflexivity.
Defined.

(** ** The listings *)

Lemma post_keeps_doctors db body : Doctors (post db body).2 = Doctors db.
Proof.
  unfold post.
  destruct (post_date body) as [requested|]; [| done].
  destruct (String.eqb requested ""); [done |].
  destruct (processDate requested) as [processedDate|]; [| done].
  destruct (Doctor_findById db (post_doctorId body)) as [doctor|]; [| done].
  destruct (calculateAvailableSlots _ _ _) as [slots|]; [| done].
  destruct (mapM normalizeSlot slots) as [normalizedSlots|]; [| done].
  destruct (negb _); [done |].
  destruct (parse processedDate) as [instant|]; [| done].
  by destruct (Appointment_findOne _ _ _).
Qed.

Lemma put_keeps_doctors newDate db id body :
  Doctors (put newDate db id body).2 = Doctors db.
Proof.
  unfold put.
  destruct (put_date body) as [requested|]; [| done].
  destruct (if String.eqb requested "" then None
            else newDate requested ≫= TimeClip)
    as [instant|]; [| done].
  destruct (put_duration body) as [[|p|p]|]; [done | | | done].
  all: destruct (Appointment_findById db id) as [a|]; [| done];
    destruct (Doctor_findById db (doctorId a)) as [doctor|]; [| done];
    destruct (calculateAvailableSlotsWith _ _ _ _) as [slots|]; [| done];
    by destruct (negb _).
Qed.

(** X21: GET /doctors answers the same before and after any POST, PUT or
    DELETE of an appointment; after a POST answered with 201, GET
    /appointments lists the new appointment and the ones listed before,
    and nothing else; after a DELETE of a stored appointment it lists the
    ones listed before except that one. *)
Theorem listings_after_writes newDate db body id pbody :
  getDoctors (post db body).2 = getDoctors db
  /\ getDoctors (put newDate db id pbody).2 = getDoctors db
  /\ getDoctors (deleteAppointment db id).2 = getDoctors db
  /\ (forall a, (post db body).1 = Created a ->
        getAppointments (post db body).2 ≡ₚ populate db a :: getAppointments db)
  /\ (forall x, Appointment_findById db id = Some x ->
        getAppointments db
        ≡ₚ populate db x :: getAppointments (deleteAppointment db id).2).
Proof.
  unfold getDoctors.
  split; [by rewrite post_keeps_doctors |].
  split; [by rewrite put_keeps_doctors |].
  split; [done |]. split.
  - intros a Ha.
    destruct (post db body) as [resp db'] eqn:Hpost. cbn [fst snd] in *.
    subst resp.
    apply post_Created_inv in Hpost
      as (requested & t & doctor & ws & we & _ & _ & _ & _ & _ & _ & _ & -> & ->).
    unfold getAppointments, documents, save. cbn [Appointments].
    rewrite map_to_list_insert by apply newAppointment_fresh.
    reflexivity.
  - intros x Hx. unfold Appointment_findById in Hx.
    unfold getAppointments, documents, deleteAppointment. cbn [snd Appointments].
    rewrite <- (insert_delete_id (Appointments db) id x Hx) at 1.
    rewrite map_to_list_insert by apply lookup_delete_eq.
    reflexivity.
Qed.
